(** * FullyShardedPlugin: a shallow embedding of
      [pytorch_lightning/plugins/training_type/fully_sharded.py]

    The plugin is glue code around three collaborators: the base
    data-parallel strategy ([DDPPlugin]), the orchestration framework
    (trainer, accelerator) and the external sharding engine (FairScale), plus
    the torch runtime.  The embedding keeps the plugin's own logic executable
    and threads the collaborators through an explicit state:

    - the attributes of [self] are a record;
    - the collaborators are a state [Ext] with one transition function per
      call the plugin makes on them (the class [Collaborators]);
    - every call made on a collaborator is appended to a trace of events;
    - exceptions are values: a method returns [Exception + A] together with
      the state reached, as in Python, where the mutations made before a
      [raise] persist. *)

From Stdlib Require Import String Ascii List Bool Arith ZArith Lia.
Import ListNotations.
Local Open Scope string_scope.
Local Open Scope list_scope.

(** ** Python strings *)

Module PyStr.

(** [s[n:]] *)
Fixpoint drop (n : nat) (s : string) : string :=
  match n, s with
  | O, _ => s
  | S n', String _ s' => drop n' s'
  | S _, EmptyString => EmptyString
  end.

(** [s.startswith(p)] *)
Definition startswith (s p : string) : bool := String.prefix p s.

(** Split [s] around the first (leftmost) occurrence of [sep]. *)
Fixpoint split_first (sep s : string) : option (string * string) :=
  if startswith s sep then Some (EmptyString, drop (String.length sep) s)
  else
    match s with
    | EmptyString => None
    | String c s' =>
        match split_first sep s' with
        | Some (h, t) => Some (String c h, t)
        | None => None
        end
    end.

(** [s.partition(sep)] for a non-empty [sep] (Python raises [ValueError] on
    an empty separator; the plugin only passes the literal ['module.']):
    the part before the first occurrence, the separator, the part after;
    or [(s, '', '')] when [sep] does not occur. *)
Definition partition (s sep : string) : string * string * string :=
  match split_first sep s with
  | Some (h, t) => (h, sep, t)
  | None => (s, EmptyString, EmptyString)
  end.

(** Indexing a 3-tuple with [[2]]. *)
Definition item2 {A B C : Type} (t : A * B * C) : C := snd t.

End PyStr.

(** ** Python dictionaries

    A [dict] keeps its keys in insertion order and assigning to a key that is
    already present overwrites the value in place, so a dictionary is an
    association list without repeated keys. *)

Module PyDict.
Section Dict.
Context {V : Type}.

Definition t := list (string * V).

Definition keys (d : t) : list string := map fst d.

Definition wf (d : t) : Prop := NoDup (keys d).

(** [d[k]]; [None] stands for [KeyError]. *)
Fixpoint get (k : string) (d : t) : option V :=
  match d with
  | [] => None
  | (k', v) :: r => if String.eqb k k' then Some v else get k r
  end.

(** [d[k] = v] *)
Fixpoint set (k : string) (v : V) (d : t) : t :=
  match d with
  | [] => [(k, v)]
  | (k', v') :: r =>
      if String.eqb k k' then (k', v) :: r else (k', v') :: set k v r
  end.

(** [{f(k): d[k] for k in d.keys()}]: the keys are visited in order and
    each pair is assigned into the dictionary under construction.  The
    lookup [d[k]] cannot raise, since [k] ranges over the keys of [d]. *)
Definition comprehension (f : string -> string) (d : t) : t :=
  fold_left
    (fun acc k => match get k d with
                  | Some v => set (f k) v acc
                  | None => acc
                  end)
    (keys d) [].
(** The dictionary with every key [k] replaced by [f k], entry by entry. *)
Definition rekey (f : string -> string) (d : t) : t :=
  map (fun kv => (f (fst kv), snd kv)) d.
End Dict.
Arguments t : clear implicits.
End PyDict.

(** ** Values shared with the collaborators *)

(** The exceptions this file raises or lets through. *)
Inductive Exception : Type :=
| MisconfigurationException (msg : string)
| BdbQuit.

(** [torch.device] *)
Record device : Type := { device_type : string; device_index : option nat }.

(** What the operator answers at the debugger prompt opened by
    [pdb.set_trace()]: resume the program, or quit, which raises [BdbQuit]
    in the debugged frame. *)
Inductive Operator : Type := Resume | Quit.

(** The four step hooks. *)
Inductive Hook : Type := training | validation | test | predict.

(** Keyword arguments received by FairScale's [enable_wrap].  The
    [wrapper_cls] is always [FullyShardedDataParallel]; the wrap policy is
    [default_auto_wrap_policy] with the threshold [min_num_params]. *)
Record WrapKwargs {ProcessGroup Dtype : Type} : Type := {
  kw_min_num_params : Z;
  kw_process_group : ProcessGroup;
  kw_cpu_offload : bool;
  kw_move_grads_to_cpu : option bool;
  kw_flatten_parameters : bool;
  kw_mixed_precision : bool;
  kw_reshard_after_forward : bool;
  kw_fp32_reduce_scatter : option bool;
  kw_compute_dtype : option Dtype;
  kw_bucket_cap_mb : Z
}.
Arguments WrapKwargs : clear implicits.

(** ** The collaborators

    Everything the plugin calls but does not define: torch, FairScale, the
    base strategy [DDPPlugin], the trainer and the debugger.  Objects owned by
    the collaborators are opaque handles; each call is a transition of the
    collaborators' state [Ext].  Calls are modelled as returning; the one
    exception is the debugger, whose operator may quit. *)
Class Collaborators : Type := {
  Module : Type;               (* torch.nn.Module instances *)
  ProcessGroup : Type;         (* torch.distributed process groups *)
  Tensor : Type;
  Dtype : Type;                (* torch.dtype *)
  ClusterEnvironment : Type;
  Args : Type;                 (* the [*args, **kwargs] of a step *)
  Output : Type;               (* what a step returns *)
  Any : Type;                  (* other checkpoint entries *)
  Ext : Type;                  (* the state of the collaborators *)

  (* what [self.model] holds before the framework attaches a model *)
  no_model : Module;

  (* torch *)
  new_group : Ext -> ProcessGroup * Ext;
  cuda_set_device : device -> Ext -> Ext;
  module_to : Module -> device -> Ext -> Ext;
  state_dict : Module -> Ext -> PyDict.t Tensor * Ext;
  modules : Module -> Ext -> list Module;

  (* fairscale *)
  is_FullyShardedDataParallel : Module -> Ext -> bool;
  enable_wrap_enter : WrapKwargs ProcessGroup Dtype -> Ext -> Ext;
  enable_wrap_exit : Ext -> Ext;
  auto_wrap : Module -> Ext -> Module * Ext;
  wrap : Module -> Ext -> Module * Ext;

  (* pytorch_lightning.overrides.fairscale *)
  LightningFullyShardedModule : Module -> Ext -> Module * Ext;
  unwrap_lightning_module_fully_sharded : Module -> Ext -> Module;

  (* DDPPlugin, the base strategy *)
  root_device : option (list device) -> Ext -> device;
  super_setup_distributed : Ext -> Ext;
  configure_sync_batchnorm : Module -> Ext -> Module * Ext;
  barrier : Ext -> Ext;
  super_step : Hook -> Module -> Args -> Ext -> Output * Ext;

  (* the trainer and the model's own hooks *)
  trainer_precision : Module -> Ext -> string;
  setup_optimizers : Module -> Ext -> Ext;
  model_step : Hook -> Module -> Args -> Ext -> Output * Ext;

  (* pdb *)
  pdb_set_trace : Ext -> Operator * Ext;

  (* the plugin registry *)
  registry_register : string -> string -> list (string * bool) -> Ext -> Ext
}.

(** ** A small concrete world, on which the model runs *)

Module Demo.

(** Module objects: a layer with a weight and a bias, a user module holding
    a child under the name [layer], the Lightning wrapper (which holds the
    user's module under the name [module]) and the sharded wrapper. *)
Inductive Obj : Type :=
| NoneObj
| Linear
| Container (child : Obj)
| LightningWrapper (m : Obj)
| Sharded (m : Obj).

Record World : Type := {
  next_group : nat;           (* handle of the next group to create *)
  operator : Operator;        (* what the operator does at the prompt *)
  scope : option Z;           (* threshold of the wrap scope, when inside one *)
  local_rank : nat            (* rank of this process on its node *)
}.

Definition cuda0 : device := {| device_type := "cuda"; device_index := Some 0 |}.

(** Where the base strategy has no device for the process (no device list,
    or a rank outside of it) the real property raises; the small world
    answers with this marker, which no run below reaches: every instance
    that is run is given the device list [[cuda0]]. *)
Definition no_device : device := {| device_type := "none"; device_index := None |}.

Definition prefixed (pre : string) (d : PyDict.t Z) : PyDict.t Z :=
  map (fun kv => ((pre ++ fst kv)%string, snd kv)) d.

Fixpoint obj_state_dict (m : Obj) : PyDict.t Z :=
  match m with
  | NoneObj => []
  | Linear => [("weight", 1%Z); ("bias", 2%Z)]
  | Container m' => prefixed "layer." (obj_state_dict m')
  | LightningWrapper m' => prefixed "module." (obj_state_dict m')
  | Sharded m' => obj_state_dict m'
  end.

Fixpoint obj_modules (m : Obj) : list Obj :=
  match m with
  | Container m' | LightningWrapper m' | Sharded m' => m :: obj_modules m'
  | _ => [m]
  end.

Definition obj_is_sharded (m : Obj) : bool :=
  match m with Sharded _ => true | _ => false end.

(** The number of parameters of a module: a layer holds two. *)
Fixpoint obj_num_params (m : Obj) : Z :=
  match m with
  | NoneObj => 0
  | Linear => 2
  | Container m' | LightningWrapper m' | Sharded m' => obj_num_params m'
  end.

(** FairScale's recursive wrap under the default policy with threshold [t]:
    a module with fewer than [t] parameters is returned as it is; otherwise
    its child is visited first, and the module itself is wrapped if the
    parameters left unwrapped still reach [t].  The second component is the
    number of parameters wrapped. *)
Fixpoint obj_auto_wrap (t : Z) (m : Obj) : Obj * Z :=
  let n := obj_num_params m in
  let finish (m' : Obj) (wrapped : Z) : Obj * Z :=
    if (t <=? n - wrapped)%Z then (Sharded m', n) else (m', wrapped) in
  if (t <=? n)%Z then
    match m with
    | Container c =>
        let (c', w) := obj_auto_wrap t c in finish (Container c') w
    | LightningWrapper c =>
        let (c', w) := obj_auto_wrap t c in finish (LightningWrapper c') w
    | Sharded c =>
        let (c', w) := obj_auto_wrap t c in finish (Sharded c') w
    | _ => finish m 0%Z
    end
  else (m, 0%Z).

Definition obj_unwrap (m : Obj) : Obj :=
  match m with
  | Sharded (LightningWrapper u) | Sharded u | LightningWrapper u => u
  | _ => m
  end.

Definition collaborators : Collaborators := {|
  Module := Obj;
  ProcessGroup := nat;
  Tensor := Z;
  Dtype := unit;
  ClusterEnvironment := unit;
  Args := nat;
  Output := nat;
  Any := unit;
  Ext := World;
  no_model := NoneObj;
  new_group := fun x =>
    (next_group x,
     {| next_group := S (next_group x); operator := operator x;
        scope := scope x; local_rank := local_rank x |});
  cuda_set_device := fun _ x => x;
  module_to := fun _ _ x => x;
  state_dict := fun m x => (obj_state_dict m, x);
  modules := fun m _ => obj_modules m;
  is_FullyShardedDataParallel := fun m _ => obj_is_sharded m;
  enable_wrap_enter := fun kw x =>
    {| next_group := next_group x; operator := operator x;
       scope := Some (kw_min_num_params kw); local_rank := local_rank x |};
  enable_wrap_exit := fun x =>
    {| next_group := next_group x; operator := operator x;
       scope := None; local_rank := local_rank x |};
  (* outside of a wrap scope both return the module as it is *)
  auto_wrap := fun m x =>
    (match scope x with Some t => fst (obj_auto_wrap t m) | None => m end, x);
  wrap := fun m x =>
    (match scope x with Some _ => Sharded m | None => m end, x);
  LightningFullyShardedModule := fun m x => (LightningWrapper m, x);
  unwrap_lightning_module_fully_sharded := fun m _ => obj_unwrap m;
  root_device := fun pd x =>
    match pd with
    | Some devices => nth (local_rank x) devices no_device
    | None => no_device
    end;
  super_setup_distributed := fun x => x;
  configure_sync_batchnorm := fun m x => (m, x);
  barrier := fun x => x;
  super_step := fun _ _ a x => (a + 2, x);
  trainer_precision := fun _ _ => "mixed";
  setup_optimizers := fun _ x => x;
  model_step := fun _ _ a x => (a + 1, x);
  pdb_set_trace := fun x => (operator x, x);
  registry_register := fun _ _ _ x => x
|}.

Definition world0 : World :=
  {| next_group := 0; operator := Resume; scope := None; local_rank := 0 |}.

(** As [world0], with an operator who quits at the debugger prompt. *)
Definition world_quit : World :=
  {| next_group := 0; operator := Quit; scope := None; local_rank := 0 |}.

End Demo.

Section Plugin.

Context {R : Collaborators}.

(** *** The attributes of [self] *)

Record FullyShardedPlugin : Type := {
  (* stored by [DDPPlugin.__init__] *)
  parallel_devices : option (list device);
  num_nodes : option Z;
  cluster_environment : option ClusterEnvironment;
  sync_batchnorm : option bool;
  model : Module;
  (* stored by [FullyShardedPlugin.__init__] *)
  cpu_offload : bool;
  move_grads_to_cpu : option bool;
  flatten_parameters : bool;
  reshard_after_forward : bool;
  fp32_reduce_scatter : option bool;
  compute_dtype : option Dtype;
  bucket_cap_mb : Z;
  module_wrap : bool;
  module_auto_wrap : bool;
  min_num_params : Z;
  _process_group : option ProcessGroup
}.

(** [self._process_group = g] *)
Definition set__process_group (g : option ProcessGroup) (p : FullyShardedPlugin)
  : FullyShardedPlugin :=
  {| parallel_devices := parallel_devices p; num_nodes := num_nodes p;
     cluster_environment := cluster_environment p;
     sync_batchnorm := sync_batchnorm p; model := model p;
     cpu_offload := cpu_offload p; move_grads_to_cpu := move_grads_to_cpu p;
     flatten_parameters := flatten_parameters p;
     reshard_after_forward := reshard_after_forward p;
     fp32_reduce_scatter := fp32_reduce_scatter p;
     compute_dtype := compute_dtype p; bucket_cap_mb := bucket_cap_mb p;
     module_wrap := module_wrap p; module_auto_wrap := module_auto_wrap p;
     min_num_params := min_num_params p; _process_group := g |}.

(** [self.model = m] *)
Definition set_model (m : Module) (p : FullyShardedPlugin) : FullyShardedPlugin :=
  {| parallel_devices := parallel_devices p; num_nodes := num_nodes p;
     cluster_environment := cluster_environment p;
     sync_batchnorm := sync_batchnorm p; model := m;
     cpu_offload := cpu_offload p; move_grads_to_cpu := move_grads_to_cpu p;
     flatten_parameters := flatten_parameters p;
     reshard_after_forward := reshard_after_forward p;
     fp32_reduce_scatter := fp32_reduce_scatter p;
     compute_dtype := compute_dtype p; bucket_cap_mb := bucket_cap_mb p;
     module_wrap := module_wrap p; module_auto_wrap := module_auto_wrap p;
     min_num_params := min_num_params p;
     _process_group := _process_group p |}.

(** *** Construction *)

Definition not_available_msg : string :=
  "Full Sharded Training is not available. Install the latest FairScale via `pip install fairscale -U`".

Definition wrap_not_supported_msg : string :=
  "Currently wrapping the ``LightningModule`` in the plugin is not supported. "
  ++ "Please wrap your model manually in the ``configure_sharded_model`` function".

(** [FullyShardedPlugin.__init__].  The module-level constant
    [_FAIRSCALE_FULLY_SHARDED_AVAILABLE] is the first argument; the others
    are the keyword arguments in the order of the signature.  The last four
    go unchanged to the constructor of the base strategy, which keeps them
    as attributes and starts without a model. *)
Definition __init__
    (_FAIRSCALE_FULLY_SHARDED_AVAILABLE : bool)
    (cpu_offload_ : bool)
    (flatten_parameters_ : bool)
    (reshard_after_forward_ : bool)
    (move_grads_to_cpu_ : option bool)
    (fp32_reduce_scatter_ : option bool)
    (compute_dtype_ : option Dtype)
    (bucket_cap_mb_ : Z)
    (module_wrap_ : bool)
    (module_auto_wrap_ : bool)
    (min_num_params_ : Z)
    (parallel_devices_ : option (list device))
    (num_nodes_ : option Z)
    (cluster_environment_ : option ClusterEnvironment)
    (sync_batchnorm_ : option bool)
  : Exception + FullyShardedPlugin :=
  if negb _FAIRSCALE_FULLY_SHARDED_AVAILABLE then
    inl (MisconfigurationException not_available_msg)
  else if module_wrap_ || module_auto_wrap_ then
    inl (MisconfigurationException wrap_not_supported_msg)
  else
    inr {| parallel_devices := parallel_devices_; num_nodes := num_nodes_;
           cluster_environment := cluster_environment_;
           sync_batchnorm := sync_batchnorm_; model := no_model;
           cpu_offload := cpu_offload_;
           move_grads_to_cpu := move_grads_to_cpu_;
           flatten_parameters := flatten_parameters_;
           reshard_after_forward := reshard_after_forward_;
           fp32_reduce_scatter := fp32_reduce_scatter_;
           compute_dtype := compute_dtype_;
           bucket_cap_mb := bucket_cap_mb_;
           module_wrap := module_wrap_;
           module_auto_wrap := module_auto_wrap_;
           min_num_params := min_num_params_;
           _process_group := None |}.

(** The [module_wrapped] property. *)
Definition module_wrapped (p : FullyShardedPlugin) : bool :=
  module_wrap p || module_auto_wrap p.

(** The [setup_optimizers_in_pre_dispatch] property. *)
Definition setup_optimizers_in_pre_dispatch (p : FullyShardedPlugin) : bool := true.

(** *** Calls on the collaborators *)

Inductive Event : Type :=
| new_group_called (returned : ProcessGroup)
| cuda_set_device_called (d : device)
| super_setup_distributed_called
| enable_wrap_entered (kw : WrapKwargs ProcessGroup Dtype)
| enable_wrap_exited
| LightningFullyShardedModule_called (m : Module)
| auto_wrap_called (m : Module)
| wrap_called (m : Module)
| to_called (m : Module) (d : device)
| setup_optimizers_called (lightning_module : Module)
| configure_sync_batchnorm_called (m : Module)
| barrier_called
| state_dict_called (m : Module)
| pdb_set_trace_called
| super_step_called (h : Hook) (a : Args)
| model_step_called (h : Hook) (m : Module) (a : Args)
| register_called (name description : string) (kwargs : list (string * bool)).

(** *** The state and the monad of the methods *)

Record State : Type := {
  self : FullyShardedPlugin;
  ext : Ext;
  trace : list Event          (* oldest call first *)
}.

Definition M (A : Type) : Type := State -> (Exception + A) * State.

Definition ret {A : Type} (a : A) : M A := fun s => (inr a, s).

Definition raise {A : Type} (e : Exception) : M A := fun s => (inl e, s).

Definition bind {A B : Type} (c : M A) (k : A -> M B) : M B :=
  fun s =>
    match c s with
    | (inr a, s') => k a s'
    | (inl e, s') => (inl e, s')
    end.

Notation "x <- c1 ;; c2" := (bind c1 (fun x => c2))
  (at level 61, c1 at next level, right associativity).
Notation "c1 ;; c2" := (bind c1 (fun _ => c2))
  (at level 61, right associativity).

(** [try: body finally: cleanup] *)
Definition finally {A : Type} (body : M A) (cleanup : M unit) : M A :=
  fun s =>
    let (r, s1) := body s in
    match cleanup s1 with
    | (inl e, s2) => (inl e, s2)
    | (inr _, s2) => (r, s2)
    end.

Definition get_self : M FullyShardedPlugin := fun s => (inr (self s), s).

Definition modify_self (f : FullyShardedPlugin -> FullyShardedPlugin) : M unit :=
  fun s => (inr tt, {| self := f (self s); ext := ext s; trace := trace s |}).

(** Reading from a collaborator without changing it. *)
Definition ask {A : Type} (f : Ext -> A) : M A := fun s => (inr (f (ext s)), s).

(** A call that returns a value, recorded in the trace. *)
Definition call {A : Type} (ev : A -> Event) (f : Ext -> A * Ext) : M A :=
  fun s =>
    let r := f (ext s) in
    (inr (fst r),
     {| self := self s; ext := snd r; trace := trace s ++ [ev (fst r)] |}).

(** A call made for its effect only. *)
Definition call_ (ev : Event) (f : Ext -> Ext) : M unit :=
  call (fun _ => ev) (fun x => (tt, f x)).

(** *** The methods *)

(** The [process_group] property. *)
Definition process_group : M ProcessGroup :=
  p <- get_self ;;
  match _process_group p with
  | None =>
      g <- call new_group_called new_group ;;
      modify_self (set__process_group (Some g)) ;;
      ret g
  | Some g => ret g
  end.

(** The [lightning_module] property. *)
Definition lightning_module : M Module :=
  p <- get_self ;;
  ask (unwrap_lightning_module_fully_sharded (model p)).

(** [self.root_device], a property of the base strategy. *)
Definition self_root_device : M device :=
  p <- get_self ;;
  ask (root_device (parallel_devices p)).

Definition setup_distributed : M unit :=
  call_ super_setup_distributed_called super_setup_distributed ;;
  d <- self_root_device ;;
  if String.eqb (device_type d) "cuda" then
    d' <- self_root_device ;;
    call_ (cuda_set_device_called d') (cuda_set_device d')
  else ret tt.

(** [with self.model_sharded_context(): body].  The generator yields inside
    [with enable_wrap(...)], so the wrap scope is left on every exit path of
    [body]. *)
Definition model_sharded_context {A : Type} (body : M A) : M A :=
  lm <- lightning_module ;;
  precision <- ask (trainer_precision lm) ;;
  g <- process_group ;;
  p <- get_self ;;
  let kw := {| kw_min_num_params := min_num_params p;
               kw_process_group := g;
               kw_cpu_offload := cpu_offload p;
               kw_move_grads_to_cpu := move_grads_to_cpu p;
               kw_flatten_parameters := flatten_parameters p;
               kw_mixed_precision := String.eqb precision "mixed";
               kw_reshard_after_forward := reshard_after_forward p;
               kw_fp32_reduce_scatter := fp32_reduce_scatter p;
               kw_compute_dtype := compute_dtype p;
               kw_bucket_cap_mb := bucket_cap_mb p |} in
  call_ (enable_wrap_entered kw) (enable_wrap_enter kw) ;;
  finally body (call_ enable_wrap_exited enable_wrap_exit).

Definition _model_has_nested_fsdp : M bool :=
  p <- get_self ;;
  ms <- ask (modules (model p)) ;;
  ask (fun x => existsb (fun m => is_FullyShardedDataParallel m x) ms).

Definition model_to_device : M unit :=
  p <- get_self ;;
  d <- self_root_device ;;
  call_ (to_called (model p) d) (module_to (model p) d) ;;
  lm <- lightning_module ;;
  d' <- self_root_device ;;
  call_ (to_called lm d') (module_to lm d').

(** [self.model = f(self.model)] for a collaborator [f]. *)
Definition rebind_model (ev : Module -> Event) (f : Module -> Ext -> Module * Ext)
  (arg : Module) : M unit :=
  m <- call (fun _ => ev arg) (f arg) ;;
  modify_self (set_model m).

(** [a and not b()], where [b()] is evaluated only if [a] holds. *)
Definition and_not (a : bool) (b : M bool) : M bool :=
  if a then (v <- b ;; ret (negb v)) else ret false.

(** The body of the [with] statement of [configure_ddp]. *)
Definition wrap_whole_module : M unit :=
  p <- get_self ;;
  auto <- and_not (module_auto_wrap p) _model_has_nested_fsdp ;;
  if auto then
    p <- get_self ;;
    lfsm <- call (fun _ => LightningFullyShardedModule_called (model p))
                 (LightningFullyShardedModule (model p)) ;;
    rebind_model auto_wrap_called auto_wrap lfsm ;;
    p <- get_self ;;
    is_fsdp <- ask (is_FullyShardedDataParallel (model p)) ;;
    if negb is_fsdp then
      p <- get_self ;;
      rebind_model wrap_called wrap (model p)
    else ret tt
  else
    p <- get_self ;;
    if module_wrap p then
      lfsm <- call (fun _ => LightningFullyShardedModule_called (model p))
                   (LightningFullyShardedModule (model p)) ;;
      rebind_model wrap_called wrap lfsm
    else ret tt.

(** The [with] statement of [configure_ddp]. *)
Definition configure_ddp_wrap : M unit :=
  model_sharded_context wrap_whole_module.

(** What [configure_ddp] does once the sharding context is closed. *)
Definition configure_ddp_finish : M unit :=
  p <- get_self ;;
  (if negb (cpu_offload p) then model_to_device else ret tt) ;;
  lm <- lightning_module ;;
  call_ (setup_optimizers_called lm) (setup_optimizers lm).

Definition configure_ddp : M unit :=
  configure_ddp_wrap ;;
  configure_ddp_finish.

(** [if self.sync_batchnorm:] on an [Optional[bool]]. *)
Definition truthy (b : option bool) : bool :=
  match b with Some true => true | _ => false end.

Definition pre_dispatch : M unit :=
  p <- get_self ;;
  (if truthy (sync_batchnorm p) then
     rebind_model configure_sync_batchnorm_called configure_sync_batchnorm (model p)
   else ret tt) ;;
  configure_ddp ;;
  call_ barrier_called barrier.

(** The key transformation of [collate_state_dict]:
    [k.partition('module.')[2]]. *)
Definition strip_key (k : string) : string :=
  PyStr.item2 (PyStr.partition k "module.").

Definition collate_state_dict : M (PyDict.t Tensor) :=
  p <- get_self ;;
  state_dict_ <- call (fun _ => state_dict_called (model p)) (state_dict (model p)) ;;
  answer <- call (fun _ => pdb_set_trace_called) pdb_set_trace ;;
  match answer with
  | Quit => raise BdbQuit
  | Resume =>
      p <- get_self ;;
      if module_wrapped p then ret (PyDict.comprehension strip_key state_dict_)
      else ret state_dict_
  end.

(** A checkpoint maps names to arbitrary values, one of which is the state
    dict. *)
Inductive CheckpointValue : Type :=
| StateDictValue (d : PyDict.t Tensor)
| OtherValue (a : Any).

Definition on_save (checkpoint : PyDict.t CheckpointValue)
  : M (PyDict.t CheckpointValue) :=
  state_dict_ <- collate_state_dict ;;
  ret (PyDict.set "state_dict" (StateDictValue state_dict_) checkpoint).

(** [register_plugins], a class method. *)
Definition register_plugins : M unit :=
  call_ (register_called "fsdp" "Fully Sharded with LightningModule wrap"
                         [("module_wrap", true)])
        (registry_register "fsdp" "Fully Sharded with LightningModule wrap"
                           [("module_wrap", true)]) ;;
  call_ (register_called "fsdp_auto_wrap"
                         "Fully Sharded Training with recursive wrapping of the module."
                         [("module_auto_wrap", true)])
        (registry_register "fsdp_auto_wrap"
                           "Fully Sharded Training with recursive wrapping of the module."
                           [("module_auto_wrap", true)]) ;;
  call_ (register_called "fsdp_manual"
                         "Fully Sharded Training with manual wrapping of the model" [])
        (registry_register "fsdp_manual"
                           "Fully Sharded Training with manual wrapping of the model" []).

(** The base strategy's implementation of the hook, with the same arguments. *)
Definition super_call (h : Hook) (a : Args) : M Output :=
  p <- get_self ;;
  call (fun _ => super_step_called h a) (super_step h (model p) a).

(** The model's own method for the hook, with the same arguments. *)
Definition model_call (h : Hook) (a : Args) : M Output :=
  p <- get_self ;;
  call (fun _ => model_step_called h (model p) a) (model_step h (model p) a).

Definition training_step (a : Args) : M Output :=
  p <- get_self ;;
  if module_wrapped p then super_call training a else model_call training a.

Definition validation_step (a : Args) : M Output :=
  p <- get_self ;;
  if module_wrapped p then super_call validation a else model_call validation a.

Definition test_step (a : Args) : M Output :=
  p <- get_self ;;
  if module_wrapped p then super_call test a else model_call test a.

Definition predict_step (a : Args) : M Output :=
  p <- get_self ;;
  if module_wrapped p then super_call predict a else model_call predict a.

Definition post_training_step : M unit := ret tt.

(** *** The lifetime of an instance

    After construction an instance is only touched through its methods and
    properties, and through the [model] setter of the base strategy, with
    which the framework attaches the model. *)

Inductive Call : Type :=
| Call_set_model (m : Module)
| Call_process_group
| Call_setup_distributed
| Call_model_sharded_context (body : Ext -> Ext)
| Call_configure_ddp
| Call_model_to_device
| Call_pre_dispatch
| Call_lightning_module
| Call_on_save (checkpoint : PyDict.t CheckpointValue)
| Call_collate_state_dict
| Call_setup_optimizers_in_pre_dispatch
| Call__model_has_nested_fsdp
| Call_register_plugins
| Call_training_step (a : Args)
| Call_validation_step (a : Args)
| Call_test_step (a : Args)
| Call_predict_step (a : Args)
| Call_post_training_step
| Call_module_wrapped.

(** The state a computation leaves, whether it returns or raises. *)
Definition exec {A : Type} (c : M A) (s : State) : State := snd (c s).

(** The code run inside a [with self.model_sharded_context():] block by a
    caller: it acts on the collaborators only. *)
Definition user_block (body : Ext -> Ext) : M unit :=
  fun s => (inr tt, {| self := self s; ext := body (ext s); trace := trace s |}).

Definition run_call (c : Call) : State -> State :=
  match c with
  | Call_set_model m => exec (modify_self (set_model m))
  | Call_process_group => exec process_group
  | Call_setup_distributed => exec setup_distributed
  | Call_model_sharded_context body => exec (model_sharded_context (user_block body))
  | Call_configure_ddp => exec configure_ddp
  | Call_model_to_device => exec model_to_device
  | Call_pre_dispatch => exec pre_dispatch
  | Call_lightning_module => exec lightning_module
  | Call_on_save checkpoint => exec (on_save checkpoint)
  | Call_collate_state_dict => exec collate_state_dict
  | Call_setup_optimizers_in_pre_dispatch => fun s => s
  | Call__model_has_nested_fsdp => exec _model_has_nested_fsdp
  | Call_register_plugins => exec register_plugins
  | Call_training_step a => exec (training_step a)
  | Call_validation_step a => exec (validation_step a)
  | Call_test_step a => exec (test_step a)
  | Call_predict_step a => exec (predict_step a)
  | Call_post_training_step => exec post_training_step
  | Call_module_wrapped => fun s => s
  end.

Definition run_calls (cs : list Call) (s : State) : State :=
  fold_left (fun s c => run_call c s) cs s.

(** A freshly constructed instance, before any call. *)
Definition fresh (p : FullyShardedPlugin) (x : Ext) : State :=
  {| self := p; ext := x; trace := [] |}.

(** The calls that wrap the whole model. *)
Definition is_wrap_event (e : Event) : bool :=
  match e with
  | LightningFullyShardedModule_called _ | auto_wrap_called _ | wrap_called _ => true
  | _ => false
  end.

Definition is_new_group (e : Event) : bool :=
  match e with new_group_called _ => true | _ => false end.

Definition is_to (e : Event) : bool :=
  match e with to_called _ _ => true | _ => false end.

(** How many groups were created along a trace. *)
Definition groups_created (l : list Event) : nat :=
  List.length (filter is_new_group l).

(** The method behind each hook. *)
Definition step (h : Hook) : Args -> M Output :=
  match h with
  | training => training_step
  | validation => validation_step
  | test => test_step
  | predict => predict_step
  end.

(** *** How an instance evolves

    The vocabulary of the lifetime properties: what a method may change in
    the instance and what it may add to the trace. *)

(** [p'] is [p] up to the two attributes assigned after construction. *)
Definition same_config (p p' : FullyShardedPlugin) : Prop :=
  p' = set_model (model p') (set__process_group (_process_group p') p).

(** The memo cell [_process_group] along a piece of trace with [n] group
    creations: once filled it keeps its group and nothing is created; while
    empty it is filled by exactly one creation. *)
Definition memo (old new : option ProcessGroup) (n : nat) : Prop :=
  match old with
  | Some g => new = Some g /\ n = 0
  | None => (new = None /\ n = 0) \/ (exists g, new = Some g /\ n = 1)
  end.

Definition no_wrap_event (l : list Event) : bool :=
  forallb (fun e => negb (is_wrap_event e)) l.

Record evolves (s s' : State) : Prop := {
  evolves_config : same_config (self s) (self s');
  evolves_trace :
    exists l, trace s' = trace s ++ l
              /\ (module_wrapped (self s) = false -> no_wrap_event l = true)
              /\ memo (_process_group (self s)) (_process_group (self s'))
                      (groups_created l)
}.

(** A computation under which every state evolves. *)
Definition evolving {A : Type} (c : M A) : Prop :=
  forall s, evolves s (exec c s).

(** The step hooks as the specification words them: through the base
    strategy when the whole module is wrapped, directly on the model
    otherwise, with the same arguments, handing back the result. *)
Definition spec_step (h : Hook) (a : Args) : M Output :=
  fun s =>
    if module_wrapped (self s) then
      let r := super_step h (model (self s)) a (ext s) in
      (inr (fst r),
       {| self := self s; ext := snd r;
          trace := trace s ++ [super_step_called h a] |})
    else
      let r := model_step h (model (self s)) a (ext s) in
      (inr (fst r),
       {| self := self s; ext := snd r;
          trace := trace s ++ [model_step_called h (model (self s)) a] |}).

End Plugin.

(** ** The specification's reading of the re-keying

    The wrapper prefix is removed from a key that starts with it; a mapping is
    re-keyed entry by entry, values untouched. *)

Definition wrapper_prefix : string := "module.".

Definition spec_strip_prefix (k : string) : string :=
  if PyStr.startswith k wrapper_prefix
  then PyStr.drop (String.length wrapper_prefix) k
  else k.

Definition spec_rekey {V : Type} (d : PyDict.t V) : PyDict.t V :=
  PyDict.rekey spec_strip_prefix d.

(** [sep] occurs in [s]. *)
Definition occurs (sep s : string) : Prop :=
  exists a b : string, s = (a ++ sep ++ b)%string.

(** ** Concrete instances in the small world *)

Module DemoRun.

#[local] Existing Instance Demo.collaborators.

(** The instance built by [FullyShardedPlugin(parallel_devices=[cuda0])],
    every other option at its default. *)
Definition defaults : FullyShardedPlugin :=
  {| parallel_devices := Some [Demo.cuda0]; num_nodes := None;
     cluster_environment := None;
     sync_batchnorm := None; model := Demo.NoneObj;
     cpu_offload := false; move_grads_to_cpu := None;
     flatten_parameters := true; reshard_after_forward := true;
     fp32_reduce_scatter := None; compute_dtype := None;
     bucket_cap_mb := 25; module_wrap := false; module_auto_wrap := false;
     min_num_params := 100000000; _process_group := None |}.

(** An instance with the wrap flags assigned by hand, as the constructor
    rejects them. *)
Definition with_flags (wrap_ auto_ : bool) (m : Demo.Obj) : FullyShardedPlugin :=
  {| parallel_devices := Some [Demo.cuda0]; num_nodes := None;
     cluster_environment := None;
     sync_batchnorm := None; model := m;
     cpu_offload := false; move_grads_to_cpu := None;
     flatten_parameters := true; reshard_after_forward := true;
     fp32_reduce_scatter := None; compute_dtype := None;
     bucket_cap_mb := 25; module_wrap := wrap_; module_auto_wrap := auto_;
     min_num_params := 100000000; _process_group := None |}.

(** The user's model inside both wrappers, as [configure_ddp] would leave
    it under [module_wrap]. *)
Definition whole_wrapped : State :=
  fresh (with_flags true false (Demo.Sharded (Demo.LightningWrapper (Demo.Container Demo.Linear))))
        Demo.world0.

(** A model in which the user has already sharded a layer. *)
Definition nested : Demo.Obj := Demo.Container (Demo.Sharded Demo.Linear).

(** No whole-module wrap. *)
Definition unwrapped : State :=
  fresh (with_flags false false (Demo.Container Demo.Linear)) Demo.world0.

(** As [unwrapped], with CPU offload. *)
Definition offloaded : State :=
  {| self :=
       {| parallel_devices := Some [Demo.cuda0]; num_nodes := None;
          cluster_environment := None;
          sync_batchnorm := None; model := Demo.Container Demo.Linear;
          cpu_offload := true; move_grads_to_cpu := None;
          flatten_parameters := true; reshard_after_forward := true;
          fp32_reduce_scatter := None; compute_dtype := None;
          bucket_cap_mb := 25; module_wrap := false; module_auto_wrap := false;
          min_num_params := 100000000; _process_group := None |};
     ext := Demo.world0; trace := [] |}.

(** A short lifetime: the model is attached, the strategy is set up and
    dispatched, a training step runs and the state is collated. *)
Definition session : list Call :=
  [Call_set_model (Demo.Container Demo.Linear); Call_setup_distributed;
   Call_pre_dispatch; Call_training_step 5; Call_collate_state_dict].

End DemoRun.

(** ** The keyword arguments of the sharding scope *)

Section Marshalling.

Context {R : Collaborators}.

(** What [model_sharded_context] hands to [enable_wrap] for an instance [p],
    the group [g] and the precision setting of the trainer. *)
Definition kwargs_of (p : FullyShardedPlugin) (g : ProcessGroup) (precision : string)
  : WrapKwargs ProcessGroup Dtype :=
  {| kw_min_num_params := min_num_params p;
     kw_process_group := g;
     kw_cpu_offload := cpu_offload p;
     kw_move_grads_to_cpu := move_grads_to_cpu p;
     kw_flatten_parameters := flatten_parameters p;
     kw_mixed_precision := String.eqb precision "mixed";
     kw_reshard_after_forward := reshard_after_forward p;
     kw_fp32_reduce_scatter := fp32_reduce_scatter p;
     kw_compute_dtype := compute_dtype p;
     kw_bucket_cap_mb := bucket_cap_mb p |}.

(** The group an access to [process_group] yields in state [s]. *)
Definition group_of (s : State) : ProcessGroup :=
  match _process_group (self s) with
  | Some g => g
  | None => fst (new_group (ext s))
  end.

(** The state in which the body of the sharding context starts. *)
Definition scope_entered (s : State) : State :=
  let s1 := exec process_group s in
  let lm := unwrap_lightning_module_fully_sharded (model (self s)) (ext s) in
  let kw := kwargs_of (self s) (group_of s) (trainer_precision lm (ext s)) in
  {| self := self s1;
     ext := enable_wrap_enter kw (ext s1);
     trace := trace s1 ++ [enable_wrap_entered kw] |}.

(** The state left when the scope is exited after the body ended in [s']. *)
Definition scope_exited (s' : State) : State :=
  {| self := self s';
     ext := enable_wrap_exit (ext s');
     trace := trace s' ++ [enable_wrap_exited] |}.

End Marshalling.

(** ** The presets of the registry *)

Section Presets.

Context {R : Collaborators}.

(** A boolean keyword argument of a call: the value given in [kwargs], or the
    default of the signature. *)
Definition kwarg (name : string) (default : bool) (kwargs : list (string * bool))
  : bool :=
  match PyDict.get name kwargs with
  | Some b => b
  | None => default
  end.

(** The constructor called with the keyword overrides of a preset: every
    parameter that is not overridden takes the default written in the
    signature of [__init__]. *)
Definition construct_preset (available : bool) (kwargs : list (string * bool))
  : Exception + FullyShardedPlugin :=
  __init__ available
           (kwarg "cpu_offload" false kwargs)
           (kwarg "flatten_parameters" true kwargs)
           (kwarg "reshard_after_forward" true kwargs)
           None None None 25
           (kwarg "module_wrap" false kwargs)
           (kwarg "module_auto_wrap" false kwargs)
           100000000 None None None None.

(** The name and the overrides recorded by a registration. *)
Definition registered_preset (e : Event) : option (string * list (string * bool)) :=
  match e with
  | register_called name _ kwargs => Some (name, kwargs)
  | _ => None
  end.

End Presets.

(** ** More instances in the small world *)

Module DemoMore.

#[local] Existing Instance Demo.collaborators.

(** Auto-wrap requested on a model that already holds a sharded layer. *)
Definition auto_nested : State :=
  fresh (DemoRun.with_flags false true DemoRun.nested) Demo.world0.

(** Both wrap flags set on a model without sharded layers. *)
Definition both_flags : State :=
  fresh (DemoRun.with_flags true true (Demo.Container Demo.Linear)) Demo.world0.

(** Manual whole-module wrap requested. *)
Definition manual : State :=
  fresh (DemoRun.with_flags true false (Demo.Container Demo.Linear)) Demo.world0.

(** The state [configure_ddp] leaves from [manual]: the model has been
    wrapped as a whole. *)
Definition manual_configured : State := exec configure_ddp manual.

(** The state [configure_ddp] leaves from [auto_nested]: nothing has been
    wrapped, and [module_wrapped] is true. *)
Definition auto_nested_configured : State := exec configure_ddp auto_nested.

(** A constructed instance to which the model has been attached and whose
    distributed setup is done. *)
Definition attached : State :=
  run_calls [Call_set_model (Demo.Container Demo.Linear); Call_setup_distributed]
            (fresh DemoRun.defaults Demo.world0).

(** Being inside a wrap scope, in the small world. *)
Definition inside_scope (x : Demo.World) : Prop := Demo.scope x <> None.

(** A checkpoint that already holds an epoch counter. *)
Definition checkpoint0 : PyDict.t CheckpointValue :=
  [("epoch", OtherValue tt)].

(** A body of the sharding context that raises. *)
Definition failing_body : M unit := raise BdbQuit.

End DemoMore.

(** * Properties *)

(** ** Construction *)

Section Construction.

Context {R : Collaborators}.

(** C2: with both [module_wrap] and [module_auto_wrap] true the constructor
    raises a [MisconfigurationException], whatever the availability of
    FairScale and whatever the other options; the exception is the result of
    the constructor call itself. *)
Theorem init_both_wrap_flags_raises :
  forall (available cpu_offload_ flatten_parameters_ reshard_after_forward_ : bool)
         (move_grads_to_cpu_ fp32_reduce_scatter_ : option bool)
         (compute_dtype_ : option Dtype) (bucket_cap_mb_ min_num_params_ : Z)
         (parallel_devices_ : option (list device)) (num_nodes_ : option Z)
         (cluster_environment_ : option ClusterEnvironment)
         (sync_batchnorm_ : option bool),
  exists msg : string,
    __init__ available cpu_offload_ flatten_parameters_ reshard_after_forward_
             move_grads_to_cpu_ fp32_reduce_scatter_ compute_dtype_
             bucket_cap_mb_ true true min_num_params_ parallel_devices_
             num_nodes_ cluster_environment_ sync_batchnorm_
    = inl (MisconfigurationException msg).
Proof.
  intros available; intros.
  destruct available; eexists; reflexivity.
Qed.

(** C1 (amended): with FairScale installed, construction succeeds exactly
    when neither wrap flag is set; as soon as one of them is set, alone or
    with the other, the constructor raises the [MisconfigurationException]
    saying that wrapping the module in the plugin is not supported. *)
Theorem init_succeeds_iff_no_wrap_flag :
  forall (cpu_offload_ flatten_parameters_ reshard_after_forward_ : bool)
         (move_grads_to_cpu_ fp32_reduce_scatter_ : option bool)
         (compute_dtype_ : option Dtype) (bucket_cap_mb_ : Z)
         (module_wrap_ module_auto_wrap_ : bool) (min_num_params_ : Z)
         (parallel_devices_ : option (list device)) (num_nodes_ : option Z)
         (cluster_environment_ : option ClusterEnvironment)
         (sync_batchnorm_ : option bool),
  let result :=
    __init__ true cpu_offload_ flatten_parameters_ reshard_after_forward_
             move_grads_to_cpu_ fp32_reduce_scatter_ compute_dtype_
             bucket_cap_mb_ module_wrap_ module_auto_wrap_ min_num_params_
             parallel_devices_ num_nodes_ cluster_environment_ sync_batchnorm_ in
  ((exists p, result = inr p) <-> module_wrap_ = false /\ module_auto_wrap_ = false)
  /\ (module_wrap_ || module_auto_wrap_ = true <->
      result = inl (MisconfigurationException wrap_not_supported_msg)).
Proof.
  intros. subst result.
  destruct module_wrap_, module_auto_wrap_; cbn; split; split; intros H;
    first [ reflexivity
          | discriminate H
          | destruct H as [p Hp]; discriminate Hp
          | destruct H as [H1 H2]; discriminate
          | split; reflexivity
          | eexists; reflexivity ].
Qed.

End Construction.

(** C1 as stated fails: with FairScale installed and only [module_wrap] set
    (every other option at its default) the constructor raises. *)
Lemma init_only_module_wrap_raises :
  __init__ (R := Demo.collaborators) true false true true None None None 25
           true false 100000000 None None None None
  = inl (MisconfigurationException wrap_not_supported_msg)
  /\ ~ (exists p,
         __init__ (R := Demo.collaborators) true false true true None None None 25
                  true false 100000000 None None None None = inr p)
  /\ __init__ (R := Demo.collaborators) true false true true None None None 25
              false true 100000000 None None None None
     = inl (MisconfigurationException wrap_not_supported_msg).
Proof.
  repeat split; try reflexivity.
  intros [p Hp]; discriminate Hp.
Qed.

(** ** Strings: [partition] splits at the first occurrence *)

Module PyStrFacts.
Import PyStr.

Lemma startswith_app (p t : string) : startswith (p ++ t) p = true.
Proof.
  unfold startswith. induction p as [|c p IH]; cbn.
  - destruct t; reflexivity.
  - destruct (ascii_dec c c) as [_|N]; [exact IH | now elim N].
Qed.

Lemma startswith_inv (p s : string) :
  startswith s p = true -> s = (p ++ drop (String.length p) s)%string.
Proof.
  unfold startswith. revert s. induction p as [|c p IH]; intros s H.
  - reflexivity.
  - destruct s as [|c' s]; cbn in H; [discriminate|].
    destruct (ascii_dec c c') as [->|_]; [|discriminate].
    cbn. f_equal. now apply IH.
Qed.

Lemma drop_app (p t : string) : drop (String.length p) (p ++ t) = t.
Proof. induction p as [|c p IH]; cbn; [reflexivity | exact IH]. Qed.

Lemma append_length (a b : string) :
  String.length (a ++ b) = String.length a + String.length b.
Proof. induction a as [|c a IH]; cbn; [reflexivity | now rewrite IH]. Qed.

Lemma append_inj_length (a a' b b' : string) :
  String.length a = String.length a' ->
  (a ++ b)%string = (a' ++ b')%string -> a = a' /\ b = b'.
Proof.
  revert a'. induction a as [|c a IH]; intros [|c' a'] L E; cbn in *;
    try discriminate.
  - now split.
  - injection E as -> E. injection L as L.
    destruct (IH a' L E) as [-> ->]. now split.
Qed.

Lemma split_first_eq (sep s : string) :
  split_first sep s =
  if startswith s sep then Some (EmptyString, drop (String.length sep) s)
  else match s with
       | EmptyString => None
       | String c s' =>
           match split_first sep s' with
           | Some (h, t) => Some (String c h, t)
           | None => None
           end
       end.
Proof. destruct s; reflexivity. Qed.

(** A result of [split_first] is a decomposition of the string. *)
Lemma split_first_decomposes (sep s h t : string) :
  split_first sep s = Some (h, t) -> s = (h ++ sep ++ t)%string.
Proof.
  revert h. induction s as [|c s IH]; intros h; rewrite split_first_eq;
    destruct (startswith _ sep) eqn:P;
    try (intros E; injection E as <- <-; cbn [append]; now apply startswith_inv);
    try discriminate.
  destruct (split_first sep s) as [[h' t']|] eqn:E; [|discriminate].
  intros E'; injection E' as <- <-. cbn. f_equal. now apply IH.
Qed.

(** No decomposition has a shorter head: the occurrence found is the first. *)
Lemma split_first_leftmost (sep s h t : string) :
  split_first sep s = Some (h, t) ->
  forall a b, s = (a ++ sep ++ b)%string -> String.length h <= String.length a.
Proof.
  revert h. induction s as [|c s IH]; intros h; rewrite split_first_eq;
    destruct (startswith _ sep) eqn:P;
    try (intros E a b _; injection E as <- <-; cbn; lia);
    try discriminate.
  destruct (split_first sep s) as [[h' t']|] eqn:E; [|discriminate].
  intros E' a b Hs; injection E' as <- <-. destruct a as [|c' a].
  - cbn in Hs. rewrite Hs, startswith_app in P. discriminate.
  - cbn in Hs. injection Hs as _ Hs. cbn.
    apply le_n_S. now apply (IH h' eq_refl a b).
Qed.

Lemma split_first_absent (sep s : string) :
  split_first sep s = None -> ~ occurs sep s.
Proof.
  induction s as [|c s IH]; rewrite split_first_eq;
    destruct (startswith _ sep) eqn:P; try discriminate.
  - intros _ [[|c a] [b Hs]]; cbn in Hs; [|discriminate].
    rewrite Hs, startswith_app in P. discriminate.
  - destruct (split_first sep s) as [[h' t']|] eqn:E; [discriminate|].
    intros _ [[|c' a] [b Hs]]; cbn in Hs.
    + rewrite Hs, startswith_app in P. discriminate.
    + injection Hs as _ Hs. apply IH; [reflexivity|]. now exists a, b.
Qed.

Lemma split_first_present (sep s : string) :
  occurs sep s -> exists h t, split_first sep s = Some (h, t).
Proof.
  intros O. destruct (split_first sep s) as [[h t]|] eqn:E.
  - now exists h, t.
  - now apply split_first_absent in E.
Qed.

(** [partition] when the separator does not occur. *)
Lemma partition_absent (s sep : string) :
  ~ occurs sep s -> partition s sep = (s, "", "")%string.
Proof.
  intros N. unfold partition.
  destruct (split_first sep s) as [[h t]|] eqn:E; [|reflexivity].
  elim N. exists h, t. now apply split_first_decomposes.
Qed.

(** [partition] at the first occurrence of the separator. *)
Lemma partition_first (s sep a b : string) :
  s = (a ++ sep ++ b)%string ->
  (forall a' b', s = (a' ++ sep ++ b')%string ->
                 String.length a <= String.length a') ->
  partition s sep = (a, sep, b).
Proof.
  intros Hs Hmin. unfold partition.
  destruct (split_first_present sep s) as (h & t & E); [now exists a, b|].
  rewrite E.
  pose proof (split_first_decomposes _ _ _ _ E) as D.
  pose proof (split_first_leftmost _ _ _ _ E a b Hs) as L1.
  pose proof (Hmin h t D) as L2.
  rewrite D in Hs.
  destruct (append_inj_length h a (sep ++ t) (sep ++ b)) as [-> E2];
    [lia | exact Hs |].
  destruct (append_inj_length sep sep t b eq_refl E2) as [_ ->].
  reflexivity.
Qed.

Example partition_at_prefix :
  partition "module.layer.weight" "module." = ("", "module.", "layer.weight")%string.
Proof. reflexivity. Qed.

Example partition_in_the_middle :
  partition "a.module.b.module.c" "module." = ("a.", "module.", "b.module.c")%string.
Proof. reflexivity. Qed.

Example partition_separator_absent :
  partition "layer.weight" "module." = ("layer.weight", "", "")%string.
Proof. reflexivity. Qed.

End PyStrFacts.

(** ** Dictionaries: comprehensions that re-key *)

Module PyDictFacts.
Import PyDict.

Section Facts.
Context {V : Type}.
Implicit Types (d acc : PyDict.t V) (k : string) (v : V).

Lemma get_not_key k d : ~ In k (keys d) -> get k d = None.
Proof.
  induction d as [|[k' v'] d IH]; cbn; [reflexivity|].
  intros N. destruct (String.eqb_spec k k') as [->|_].
  - elim N. now left.
  - apply IH. intros I. apply N. now right.
Qed.

(** In a well-formed dictionary a key is bound to the value stored with it. *)
Lemma get_entry k v d : wf d -> In (k, v) d -> get k d = Some v.
Proof.
  unfold wf. induction d as [|[k' v'] d IH]; cbn; [easy|].
  intros W I. inversion W as [|? ? Hnotin W']; subst.
  destruct I as [[= -> ->]|I].
  - now rewrite String.eqb_refl.
  - destruct (String.eqb_spec k k') as [->|_]; [|now apply IH].
    elim Hnotin. change (In (fst (k', v)) (map fst d)). now apply in_map.
Qed.

(** Assigning to a key that is not there appends the entry. *)
Lemma set_new_key k v acc : ~ In k (keys acc) -> set k v acc = acc ++ [(k, v)].
Proof.
  induction acc as [|[k' v'] acc IH]; cbn; [reflexivity|].
  intros N. destruct (String.eqb_spec k k') as [->|_].
  - elim N. now left.
  - f_equal. apply IH. intros I. apply N. now right.
Qed.

Lemma keys_rekey f d : keys (rekey f d) = map f (keys d).
Proof. unfold keys, rekey. rewrite !map_map. reflexivity. Qed.

Lemma values_rekey f d : map snd (rekey f d) = map snd d.
Proof. unfold rekey. rewrite map_map. reflexivity. Qed.

(** The loop of the comprehension, started after the entries [d1]. *)
Lemma comprehension_loop f d :
  wf d ->
  (forall k1 k2, In k1 (keys d) -> In k2 (keys d) -> f k1 = f k2 -> k1 = k2) ->
  forall d2 d1, d = d1 ++ d2 ->
    fold_left (fun acc k => match get k d with
                            | Some v => set (f k) v acc
                            | None => acc
                            end) (keys d2) (rekey f d1)
    = rekey f d.
Proof.
  intros W Inj. induction d2 as [|[k v] d2 IH]; intros d1 E; cbn.
  - rewrite app_nil_r in E. now subst.
  - rewrite (get_entry k v d W) by (subst d; apply in_elt).
    rewrite set_new_key.
    + replace (rekey f d1 ++ [(f k, v)]) with (rekey f (d1 ++ [(k, v)]))
        by (unfold rekey; now rewrite map_app).
      apply IH. subst d. now rewrite <- app_assoc.
    + rewrite keys_rekey. intros I. apply in_map_iff in I as (k1 & Ek & I1).
      assert (Hk1 : In k1 (keys d)).
      { subst d. unfold keys. rewrite map_app. apply in_or_app. now left. }
      assert (Hk : In k (keys d)).
      { subst d. unfold keys. rewrite map_app. apply in_or_app. right. now left. }
      pose proof (Inj k1 k Hk1 Hk Ek) as ->.
      unfold wf in W. subst d. unfold keys in W. rewrite map_app in W. cbn in W.
      apply NoDup_remove_2 in W. apply W. apply in_or_app. now left.
Qed.

(** With a key function injective on the keys of [d], the comprehension
    re-keys entry by entry. *)
Lemma comprehension_injective f d :
  wf d ->
  (forall k1 k2, In k1 (keys d) -> In k2 (keys d) -> f k1 = f k2 -> k1 = k2) ->
  comprehension f d = rekey f d.
Proof.
  intros W Inj. unfold comprehension.
  exact (comprehension_loop f d W Inj d [] eq_refl).
Qed.

(** Two keys with the same image end up in one entry, which holds the value
    of the later key. *)
Lemma comprehension_collision f k1 k2 v1 v2 :
  k1 <> k2 -> f k1 = f k2 ->
  comprehension f [(k1, v1); (k2, v2)] = [(f k1, v2)].
Proof.
  intros N E. unfold comprehension. cbn.
  rewrite !String.eqb_refl.
  destruct (String.eqb_spec k2 k1) as [->|_]; [now elim N|].
  cbn. rewrite <- E, String.eqb_refl. reflexivity.
Qed.

End Facts.
End PyDictFacts.

(** ** [collate_state_dict] *)

Section CollateStateDict.

Context {R : Collaborators}.

(** What one call does, in closed form: the state dict is fetched, the
    debugger is entered, and the operator's answer decides the outcome. *)
Lemma collate_state_dict_eq (s : State) :
  collate_state_dict s =
  let fetched := state_dict (model (self s)) (ext s) in
  let prompt := pdb_set_trace (snd fetched) in
  (match fst prompt with
   | Quit => inl BdbQuit
   | Resume =>
       inr (if module_wrapped (self s)
            then PyDict.comprehension strip_key (fst fetched)
            else fst fetched)
   end,
   {| self := self s; ext := snd prompt;
      trace := (trace s ++ [state_dict_called (model (self s))])
               ++ [pdb_set_trace_called] |}).
Proof.
  unfold collate_state_dict, bind, get_self, call, ret, raise. cbn.
  destruct (fst (pdb_set_trace _)); [|reflexivity].
  cbn. destruct (module_wrapped (self s)); reflexivity.
Qed.

Lemma strip_key_prefixed (t : string) : strip_key ("module." ++ t) = t.
Proof.
  unfold strip_key, PyStr.partition.
  rewrite PyStrFacts.split_first_eq, PyStrFacts.startswith_app.
  cbn [PyStr.item2 snd]. apply (PyStrFacts.drop_app "module." t).
Qed.

Lemma strip_key_spec_on_prefixed (k : string) :
  PyStr.startswith k wrapper_prefix = true -> strip_key k = spec_strip_prefix k.
Proof.
  intros P. unfold spec_strip_prefix. rewrite P.
  rewrite (PyStrFacts.startswith_inv _ _ P) at 1.
  apply strip_key_prefixed.
Qed.

Lemma strip_key_injective_on_prefixed (k1 k2 : string) :
  PyStr.startswith k1 wrapper_prefix = true ->
  PyStr.startswith k2 wrapper_prefix = true ->
  strip_key k1 = strip_key k2 -> k1 = k2.
Proof.
  intros P1 P2 E.
  pose proof (PyStrFacts.startswith_inv _ _ P1) as E1.
  pose proof (PyStrFacts.startswith_inv _ _ P2) as E2.
  remember (PyStr.drop (String.length wrapper_prefix) k1) as t1.
  remember (PyStr.drop (String.length wrapper_prefix) k2) as t2.
  subst k1 k2. unfold wrapper_prefix in E.
  rewrite !strip_key_prefixed in E. now rewrite E.
Qed.

(** C4: every call of [collate_state_dict], whatever the attributes of the
    instance and whatever the model answers, fetches the state dict and then
    enters the debugger, and makes no other call; the call returns only on the
    operator's answer at the prompt, and raises [BdbQuit] if the operator
    quits. *)
Theorem collate_state_dict_always_enters_debugger :
  forall s : State,
    let fetched := state_dict (model (self s)) (ext s) in
    let answer := fst (pdb_set_trace (snd fetched)) in
    trace (exec collate_state_dict s)
    = trace s ++ [state_dict_called (model (self s)); pdb_set_trace_called]
    /\ ((exists d, fst (collate_state_dict s) = inr d) <-> answer = Resume)
    /\ (fst (collate_state_dict s) = inl BdbQuit <-> answer = Quit).
Proof.
  intros s fetched answer. unfold exec. rewrite collate_state_dict_eq.
  cbn [fst snd trace]. fold fetched. fold answer. split.
  - now rewrite <- app_assoc.
  - destruct answer; split; split; intros H;
      first [ reflexivity | discriminate H
            | now destruct H
            | eexists; reflexivity ].
Qed.

(** C6: when [module_wrapped] is false, [collate_state_dict] returns the
    state dict exactly as the model's [state_dict()] produced it: it returns
    it once the operator resumes, and it returns nothing else. *)
Theorem collate_state_dict_unwrapped_unmodified :
  forall s : State,
    module_wrapped (self s) = false ->
    let fetched := state_dict (model (self s)) (ext s) in
    (fst (pdb_set_trace (snd fetched)) = Resume ->
     fst (collate_state_dict s) = inr (fst fetched))
    /\ (forall d, fst (collate_state_dict s) = inr d -> d = fst fetched).
Proof.
  intros s W fetched. rewrite collate_state_dict_eq. fold fetched.
  cbn [fst]. rewrite W. split.
  - intros ->. reflexivity.
  - intros d. destruct (fst (pdb_set_trace _)); [|discriminate].
    intros [= <-]. reflexivity.
Qed.

(** C5: when the module was wrapped as a whole, that is, [module_wrapped] is
    true and the model is the wrapper that holds the user's module under the
    name [module], so that every key of its state dict starts with the
    wrapper prefix, [collate_state_dict] returns (once the operator resumes)
    the state dict re-keyed entry by entry, the prefix removed from every
    key, with the same values in the same order. *)
Theorem collate_state_dict_strips_prefix :
  forall s : State,
    module_wrapped (self s) = true ->
    let fetched := state_dict (model (self s)) (ext s) in
    PyDict.wf (fst fetched) ->
    Forall (fun k => PyStr.startswith k wrapper_prefix = true)
           (PyDict.keys (fst fetched)) ->
    fst (pdb_set_trace (snd fetched)) = Resume ->
    fst (collate_state_dict s) = inr (spec_rekey (fst fetched))
    /\ map snd (spec_rekey (fst fetched)) = map snd (fst fetched).
Proof.
  intros s W fetched Hwf Hpre Hresume. rewrite collate_state_dict_eq.
  fold fetched. cbn [fst]. rewrite Hresume, W.
  rewrite Forall_forall in Hpre. split.
  - f_equal. rewrite PyDictFacts.comprehension_injective; trivial.
    + unfold spec_rekey, PyDict.rekey. apply map_ext_in.
      intros [k v] I. cbn. f_equal. apply strip_key_spec_on_prefixed.
      apply Hpre. change (In (fst (k, v)) (map fst (fst fetched))).
      now apply in_map.
    + intros k1 k2 I1 I2. apply strip_key_injective_on_prefixed; auto.
  - apply PyDictFacts.values_rekey.
Qed.

(** C7: the re-keying is [partition], not a prefix strip.  A key in which
    ['module.'] does not occur becomes the empty key; a key loses everything
    up to and including the first occurrence of ['module.'], wherever it is;
    so distinct keys can have the same image, and two such keys are collapsed
    into one entry.  This is the function [collate_state_dict] applies when
    [module_wrapped] is true: once the operator resumes, the call returns the
    state dict re-keyed by it, and it returns nothing else. *)
Theorem strip_key_partitions :
  (forall k, ~ occurs "module." k -> strip_key k = EmptyString)
  /\ (forall a b : string,
        (forall a' b', (a ++ "module." ++ b)%string = (a' ++ "module." ++ b')%string ->
                       String.length a <= String.length a') ->
        strip_key (a ++ "module." ++ b) = b)
  /\ (exists k1 k2, k1 <> k2 /\ strip_key k1 = strip_key k2)
  /\ (forall (k1 k2 : string) (v1 v2 : Tensor),
        k1 <> k2 -> strip_key k1 = strip_key k2 ->
        PyDict.comprehension strip_key [(k1, v1); (k2, v2)] = [(strip_key k1, v2)])
  /\ (forall s : State,
        module_wrapped (self s) = true ->
        fst (pdb_set_trace (snd (state_dict (model (self s)) (ext s)))) = Resume ->
        fst (collate_state_dict s)
        = inr (PyDict.comprehension strip_key
                 (fst (state_dict (model (self s)) (ext s)))))
  /\ (forall s : State,
        module_wrapped (self s) = true ->
        forall d, fst (collate_state_dict s) = inr d ->
        d = PyDict.comprehension strip_key
              (fst (state_dict (model (self s)) (ext s)))).
Proof.
  repeat split.
  - intros k N. unfold strip_key. now rewrite PyStrFacts.partition_absent.
  - intros a b Hmin. unfold strip_key.
    now rewrite (PyStrFacts.partition_first _ "module." a b eq_refl Hmin).
  - exists "layer.weight", "layer.bias". split; [discriminate | reflexivity].
  - intros k1 k2 v1 v2. apply PyDictFacts.comprehension_collision.
  - intros s W Hresume. rewrite collate_state_dict_eq. cbn [fst].
    now rewrite Hresume, W.
  - intros s W d. rewrite collate_state_dict_eq. cbn [fst]. rewrite W.
    destruct (fst (pdb_set_trace _)); [|discriminate].
    intros [= <-]. reflexivity.
Qed.

End CollateStateDict.

(** ** How the methods change an instance *)

Section Lifetime.

Context {R : Collaborators}.

Lemma same_config_refl (p : FullyShardedPlugin) : same_config p p.
Proof. destruct p; reflexivity. Qed.

Lemma same_config_trans (p1 p2 p3 : FullyShardedPlugin) :
  same_config p1 p2 -> same_config p2 p3 -> same_config p1 p3.
Proof.
  unfold same_config. intros H1 H2.
  rewrite H2, H1. cbn. reflexivity.
Qed.

(** The attributes no method assigns. *)
Lemma same_config_flags (p p' : FullyShardedPlugin) :
  same_config p p' ->
  module_wrap p' = module_wrap p
  /\ module_auto_wrap p' = module_auto_wrap p
  /\ cpu_offload p' = cpu_offload p
  /\ parallel_devices p' = parallel_devices p.
Proof. intros H. rewrite H. cbn. auto. Qed.

Lemma same_config_module_wrapped (p p' : FullyShardedPlugin) :
  same_config p p' -> module_wrapped p' = module_wrapped p.
Proof.
  intros H. destruct (same_config_flags _ _ H) as (E1 & E2 & _).
  unfold module_wrapped. now rewrite E1, E2.
Qed.

Lemma groups_created_app (l1 l2 : list Event) :
  groups_created (l1 ++ l2) = groups_created l1 + groups_created l2.
Proof. unfold groups_created. now rewrite filter_app, length_app. Qed.

Lemma no_wrap_event_app (l1 l2 : list Event) :
  no_wrap_event (l1 ++ l2) = no_wrap_event l1 && no_wrap_event l2.
Proof. apply forallb_app. Qed.

Lemma memo_refl (o : option ProcessGroup) : memo o o 0.
Proof. destruct o; cbn; auto. Qed.

Lemma memo_trans (o1 o2 o3 : option ProcessGroup) (n1 n2 : nat) :
  memo o1 o2 n1 -> memo o2 o3 n2 -> memo o1 o3 (n1 + n2).
Proof.
  destruct o1 as [g1|]; cbn.
  - intros [-> ->]. cbn. auto.
  - intros [[-> ->]|(g & -> & ->)]; cbn; [auto|].
    intros [-> ->]. right. now exists g.
Qed.

Lemma evolves_refl (s : State) : evolves s s.
Proof.
  split; [apply same_config_refl|].
  exists []. rewrite app_nil_r. repeat split. apply memo_refl.
Qed.

Lemma evolves_trans (s1 s2 s3 : State) :
  evolves s1 s2 -> evolves s2 s3 -> evolves s1 s3.
Proof.
  intros [C12 (l1 & T1 & W1 & M1)] [C23 (l2 & T2 & W2 & M2)].
  split; [now apply same_config_trans with (self s2)|].
  exists (l1 ++ l2). repeat split.
  - now rewrite T2, T1, app_assoc.
  - intros W. rewrite no_wrap_event_app, W1, W2; trivial.
    now rewrite (same_config_module_wrapped _ _ C12).
  - rewrite groups_created_app. now apply memo_trans with (_process_group (self s2)).
Qed.

(** *** The primitives of the monad *)

Lemma evolving_ret {A : Type} (a : A) : evolving (ret a).
Proof. intros s. apply evolves_refl. Qed.

Lemma evolving_raise {A : Type} (e : Exception) : evolving (@raise _ A e).
Proof. intros s. apply evolves_refl. Qed.

Lemma evolving_get_self : evolving get_self.
Proof. intros s. apply evolves_refl. Qed.

Lemma evolving_ask {A : Type} (f : Ext -> A) : evolving (ask f).
Proof. intros s. apply evolves_refl. Qed.

Lemma evolving_bind {A B : Type} (c : M A) (k : A -> M B) :
  evolving c -> (forall a, evolving (k a)) -> evolving (bind c k).
Proof.
  intros Hc Hk s. specialize (Hc s). unfold exec, bind in *.
  destruct (c s) as [[e|a] s']; cbn in *; [exact Hc|].
  apply evolves_trans with s'; [exact Hc | apply Hk].
Qed.

Lemma evolving_if {A : Type} (b : bool) (c1 c2 : M A) :
  evolving c1 -> evolving c2 -> evolving (if b then c1 else c2).
Proof. now destruct b. Qed.

Lemma evolving_finally {A : Type} (body : M A) (cleanup : M unit) :
  evolving body -> evolving cleanup -> evolving (finally body cleanup).
Proof.
  intros Hb Hc s. specialize (Hb s). unfold exec, finally in *.
  destruct (body s) as [r s1]; cbn in *. specialize (Hc s1). unfold exec in Hc.
  destruct (cleanup s1) as [[e|u] s2]; cbn in *;
    now apply evolves_trans with s1.
Qed.

(** A call that neither wraps the module nor creates a group. *)
Lemma evolving_call {A : Type} (ev : A -> Event) (f : Ext -> A * Ext) :
  (forall a, is_wrap_event (ev a) = false) ->
  (forall a, is_new_group (ev a) = false) ->
  evolving (call ev f).
Proof.
  intros Hw Hg s. split; cbn; [apply same_config_refl|].
  eexists. split; [reflexivity|]. split.
  - intros _. cbn. now rewrite Hw.
  - unfold groups_created. cbn. rewrite Hg. apply memo_refl.
Qed.

Lemma evolving_call_ (ev : Event) (f : Ext -> Ext) :
  is_wrap_event ev = false -> is_new_group ev = false ->
  evolving (call_ ev f).
Proof. intros Hw Hg. now apply evolving_call. Qed.

Lemma evolving_set_model (m : Module) : evolving (modify_self (set_model m)).
Proof.
  intros s. split; cbn; [destruct (self s); reflexivity|].
  exists []. rewrite app_nil_r. repeat split. apply memo_refl.
Qed.

Lemma evolving_user_block (body : Ext -> Ext) : evolving (user_block body).
Proof.
  intros s. split; cbn; [apply same_config_refl|].
  exists []. rewrite app_nil_r. repeat split. apply memo_refl.
Qed.

Lemma evolving_rebind_model (ev : Module -> Event)
      (f : Module -> Ext -> Module * Ext) (arg : Module) :
  is_wrap_event (ev arg) = false -> is_new_group (ev arg) = false ->
  evolving (rebind_model ev f arg).
Proof.
  intros Hw Hg. apply evolving_bind; [now apply evolving_call|].
  intros m. apply evolving_set_model.
Qed.

(** *** The methods *)

Create HintDb evolving discriminated.

#[local] Hint Resolve evolving_ret evolving_raise evolving_get_self evolving_ask
  evolving_bind evolving_if evolving_finally evolving_call evolving_call_
  evolving_set_model evolving_user_block evolving_rebind_model : evolving.

#[local] Hint Extern 1 (_ = _) => reflexivity : evolving.

Ltac evolving_method := auto 30 with evolving nocore.

(** The lazy property: the only place where a group is created and the memo
    cell assigned. *)
Lemma process_group_eq (s : State) :
  process_group s =
  match _process_group (self s) with
  | Some g => (inr g, s)
  | None =>
      let r := new_group (ext s) in
      (inr (fst r),
       {| self := set__process_group (Some (fst r)) (self s);
          ext := snd r;
          trace := trace s ++ [new_group_called (fst r)] |})
  end.
Proof.
  unfold process_group, bind, get_self. cbn.
  destruct (_process_group (self s)); reflexivity.
Qed.

Lemma evolving_process_group : evolving process_group.
Proof.
  intros s. unfold exec. rewrite process_group_eq.
  destruct (_process_group (self s)) as [g|] eqn:G; cbn.
  - apply evolves_refl.
  - split; cbn; [destruct (self s); reflexivity|].
    eexists. split; [reflexivity|]. split; [reflexivity|].
    rewrite G. right. eexists. split; reflexivity.
Qed.

#[local] Hint Resolve evolving_process_group : evolving.

Lemma evolving_lightning_module : evolving lightning_module.
Proof. unfold lightning_module. evolving_method. Qed.

Lemma evolving_self_root_device : evolving self_root_device.
Proof. unfold self_root_device. evolving_method. Qed.

#[local] Hint Resolve evolving_lightning_module evolving_self_root_device : evolving.

Lemma evolving_setup_distributed : evolving setup_distributed.
Proof. unfold setup_distributed. evolving_method. Qed.

Lemma evolving_model_sharded_context {A : Type} (body : M A) :
  evolving body -> evolving (model_sharded_context body).
Proof. intros Hb. unfold model_sharded_context. cbv zeta. evolving_method. Qed.

Lemma evolving__model_has_nested_fsdp : evolving _model_has_nested_fsdp.
Proof. unfold _model_has_nested_fsdp. evolving_method. Qed.

Lemma evolving_model_to_device : evolving model_to_device.
Proof. unfold model_to_device. evolving_method. Qed.

#[local] Hint Resolve evolving_setup_distributed evolving_model_sharded_context
  evolving__model_has_nested_fsdp evolving_model_to_device : evolving.

(** The body of the [with] statement: the wrap calls sit behind the two
    flags, so the block is followed branch by branch. *)
Ltac evolves_by_trace :=
  split; cbn;
  [ destruct (self _); reflexivity
  | eexists; split;
    [ rewrite <- ?app_assoc; reflexivity
    | split;
      [ unfold module_wrapped; intros W;
        repeat match goal with E : _ = true |- _ => rewrite E in W end;
        try rewrite orb_true_r in W; discriminate W
      | unfold groups_created; cbn; apply memo_refl ] ] ].

Lemma wrap_whole_module_spec (s : State) :
  fst (wrap_whole_module s) = inr tt /\ evolves s (exec wrap_whole_module s).
Proof.
  unfold exec, wrap_whole_module, and_not, _model_has_nested_fsdp, rebind_model,
    bind, get_self, ask, call, modify_self, ret.
  cbn.
  destruct (module_auto_wrap (self s)) eqn:Ea; cbn.
  - destruct (existsb _ _) eqn:En; cbn.
    + destruct (module_wrap (self s)) eqn:Ew; cbn.
      * split; [reflexivity | evolves_by_trace].
      * split; [reflexivity | apply evolves_refl].
    + destruct (is_FullyShardedDataParallel _ _) eqn:Ef; cbn;
        (split; [reflexivity | evolves_by_trace]).
  - destruct (module_wrap (self s)) eqn:Ew; cbn.
    + split; [reflexivity | evolves_by_trace].
    + split; [reflexivity | apply evolves_refl].
Qed.

Lemma evolving_wrap_whole_module : evolving wrap_whole_module.
Proof. intros s. apply wrap_whole_module_spec. Qed.

#[local] Hint Resolve evolving_wrap_whole_module : evolving.

Lemma evolving_configure_ddp_wrap : evolving configure_ddp_wrap.
Proof. unfold configure_ddp_wrap. evolving_method. Qed.

Lemma evolving_configure_ddp_finish : evolving configure_ddp_finish.
Proof. unfold configure_ddp_finish. evolving_method. Qed.

#[local] Hint Resolve evolving_configure_ddp_wrap evolving_configure_ddp_finish
  : evolving.

Lemma evolving_configure_ddp : evolving configure_ddp.
Proof. unfold configure_ddp. evolving_method. Qed.

#[local] Hint Resolve evolving_configure_ddp : evolving.

Lemma evolving_pre_dispatch : evolving pre_dispatch.
Proof. unfold pre_dispatch. evolving_method. Qed.

Lemma evolving_collate_state_dict : evolving collate_state_dict.
Proof.
  unfold collate_state_dict.
  apply evolving_bind; [evolving_method|]. intros p.
  apply evolving_bind; [evolving_method|]. intros d.
  apply evolving_bind; [evolving_method|]. intros [|]; evolving_method.
Qed.

#[local] Hint Resolve evolving_pre_dispatch evolving_collate_state_dict : evolving.

Lemma evolving_on_save (checkpoint : PyDict.t CheckpointValue) :
  evolving (on_save checkpoint).
Proof. unfold on_save. evolving_method. Qed.

Lemma evolving_register_plugins : evolving register_plugins.
Proof. unfold register_plugins. evolving_method. Qed.

Lemma evolving_super_call (h : Hook) (a : Args) : evolving (super_call h a).
Proof. unfold super_call. evolving_method. Qed.

Lemma evolving_model_call (h : Hook) (a : Args) : evolving (model_call h a).
Proof. unfold model_call. evolving_method. Qed.

#[local] Hint Resolve evolving_super_call evolving_model_call : evolving.

Lemma evolving_step (h : Hook) (a : Args) : evolving (step h a).
Proof.
  destruct h; cbn;
    unfold training_step, validation_step, test_step, predict_step;
    evolving_method.
Qed.

(** Every call of the lifetime makes the state evolve. *)
Lemma run_call_evolves (c : Call) (s : State) : evolves s (run_call c s).
Proof.
  destruct c; cbn [run_call];
    first [ apply evolves_refl
          | apply evolving_set_model
          | apply evolving_process_group
          | apply evolving_setup_distributed
          | apply evolving_model_sharded_context, evolving_user_block
          | apply evolving_configure_ddp
          | apply evolving_model_to_device
          | apply evolving_pre_dispatch
          | apply evolving_lightning_module
          | apply evolving_on_save
          | apply evolving_collate_state_dict
          | apply evolving__model_has_nested_fsdp
          | apply evolving_register_plugins
          | apply (evolving_step training)
          | apply (evolving_step validation)
          | apply (evolving_step test)
          | apply (evolving_step predict) ].
Qed.

Lemma run_calls_evolves (cs : list Call) (s : State) : evolves s (run_calls cs s).
Proof.
  revert s. induction cs as [|c cs IH]; intros s; cbn.
  - apply evolves_refl.
  - apply evolves_trans with (run_call c s); [apply run_call_evolves | apply IH].
Qed.

(** *** The sharding context and [configure_ddp] *)

(** Whatever the body does, the context hands back the body's outcome and
    its last call is the exit of the wrap scope. *)
Lemma model_sharded_context_shape {A : Type} (body : M A) (s : State) :
  exists s2,
    fst (model_sharded_context body s) = fst (body s2)
    /\ exec (model_sharded_context body) s
       = {| self := self (exec body s2);
            ext := enable_wrap_exit (ext (exec body s2));
            trace := trace (exec body s2) ++ [enable_wrap_exited] |}.
Proof.
  unfold exec, model_sharded_context, lightning_module, bind, get_self, ask.
  cbn -[process_group].
  rewrite process_group_eq.
  destruct (_process_group (self s)) as [g|]; cbn;
    unfold finally, call_, call; cbn;
    match goal with |- context [body ?x] => exists x end;
    destruct (body _); split; reflexivity.
Qed.

Lemma configure_ddp_wrap_returns (s : State) :
  fst (configure_ddp_wrap s) = inr tt.
Proof.
  unfold configure_ddp_wrap.
  destruct (model_sharded_context_shape wrap_whole_module s) as (s2 & -> & _).
  apply wrap_whole_module_spec.
Qed.

Lemma configure_ddp_wrap_closes (s : State) :
  exists l, trace (exec configure_ddp_wrap s) = l ++ [enable_wrap_exited].
Proof.
  unfold configure_ddp_wrap.
  destruct (model_sharded_context_shape wrap_whole_module s) as (s2 & _ & ->).
  eexists. reflexivity.
Qed.

(** With both flags false the body of the [with] statement does nothing. *)
Lemma wrap_whole_module_skipped (s : State) :
  module_wrapped (self s) = false -> wrap_whole_module s = (inr tt, s).
Proof.
  unfold module_wrapped. intros W. apply orb_false_elim in W as [Ew Ea].
  unfold wrap_whole_module, and_not, bind, get_self, ret. cbn.
  rewrite Ea. cbn. rewrite Ew. reflexivity.
Qed.

(** The end of [configure_ddp] in closed form. *)
Lemma configure_ddp_finish_eq (s : State) :
  configure_ddp_finish s =
  let m := model (self s) in
  let pd := parallel_devices (self s) in
  if cpu_offload (self s) then
    let lm := unwrap_lightning_module_fully_sharded m (ext s) in
    (inr tt,
     {| self := self s; ext := setup_optimizers lm (ext s);
        trace := trace s ++ [setup_optimizers_called lm] |})
  else
    let d := root_device pd (ext s) in
    let x1 := module_to m d (ext s) in
    let lm := unwrap_lightning_module_fully_sharded m x1 in
    let d' := root_device pd x1 in
    let x2 := module_to lm d' x1 in
    let lm' := unwrap_lightning_module_fully_sharded m x2 in
    (inr tt,
     {| self := self s; ext := setup_optimizers lm' x2;
        trace := ((trace s ++ [to_called m d]) ++ [to_called lm d'])
                 ++ [setup_optimizers_called lm'] |}).
Proof.
  unfold configure_ddp_finish, model_to_device, lightning_module,
    self_root_device, bind, get_self, ask, call_, call, ret.
  cbn. destruct (cpu_offload (self s)); reflexivity.
Qed.


(** *** The step hooks *)

(** C8: each of [training_step], [validation_step], [test_step] and
    [predict_step] is the dispatch on [module_wrapped]: the base strategy's
    implementation of the same hook when it is true, the model's own method
    when it is false, with the same arguments, and the result of that call is
    the result of the step. *)
Theorem steps_dispatch_on_module_wrapped :
  forall (a : Args) (s : State),
    training_step a s = spec_step training a s
    /\ validation_step a s = spec_step validation a s
    /\ test_step a s = spec_step test a s
    /\ predict_step a s = spec_step predict a s.
Proof.
  intros a s.
  unfold training_step, validation_step, test_step, predict_step, spec_step,
    super_call, model_call, bind, get_self, call.
  cbn. destruct (module_wrapped (self s)); repeat split; reflexivity.
Qed.

(** *** Constructed instances *)

(** What the constructor guarantees of the instance it returns. *)
Lemma init_returns
      (available cpu_offload_ flatten_parameters_ reshard_after_forward_ : bool)
      (move_grads_to_cpu_ fp32_reduce_scatter_ : option bool)
      (compute_dtype_ : option Dtype) (bucket_cap_mb_ : Z)
      (module_wrap_ module_auto_wrap_ : bool) (min_num_params_ : Z)
      (parallel_devices_ : option (list device)) (num_nodes_ : option Z)
      (cluster_environment_ : option ClusterEnvironment)
      (sync_batchnorm_ : option bool) (p : FullyShardedPlugin) :
  __init__ available cpu_offload_ flatten_parameters_ reshard_after_forward_
           move_grads_to_cpu_ fp32_reduce_scatter_ compute_dtype_
           bucket_cap_mb_ module_wrap_ module_auto_wrap_ min_num_params_
           parallel_devices_ num_nodes_ cluster_environment_ sync_batchnorm_
  = inr p ->
  module_wrap p = false /\ module_auto_wrap p = false
  /\ _process_group p = None /\ cpu_offload p = cpu_offload_.
Proof.
  unfold __init__.
  destruct available; cbn; [|discriminate].
  destruct module_wrap_, module_auto_wrap_; cbn; try discriminate.
  intros [= <-]. cbn. auto.
Qed.

(** Along the lifetime of an instance built without wrap flags. *)
Lemma unwrapped_lifetime (p : FullyShardedPlugin) (x : Ext) (cs : list Call) :
  module_wrap p = false -> module_auto_wrap p = false ->
  let s := run_calls cs (fresh p x) in
  module_wrap (self s) = false /\ module_auto_wrap (self s) = false
  /\ no_wrap_event (trace s) = true.
Proof.
  intros Ew Ea s.
  destruct (run_calls_evolves cs (fresh p x)) as [C (l & T & W & _)].
  fold s in C, T.
  destruct (same_config_flags _ _ C) as (E1 & E2 & _). cbn in E1, E2.
  rewrite E1, E2, T. cbn. repeat split; trivial.
  apply W. cbn. unfold module_wrapped. now rewrite Ew, Ea.
Qed.

(** C3: an instance the constructor returns has both wrap flags false, and
    they stay false whatever methods are called on it afterwards: in every
    state of its lifetime [module_wrapped] is false, each of the four step
    methods is the direct call on the model, the body of the [with] statement
    of [configure_ddp] does nothing (in any state of the collaborators, and
    whatever the model and the memo cell hold), and no call that wraps the
    whole module has ever been made. *)
Theorem constructed_instance_never_wrapped :
  forall (available cpu_offload_ flatten_parameters_ reshard_after_forward_ : bool)
         (move_grads_to_cpu_ fp32_reduce_scatter_ : option bool)
         (compute_dtype_ : option Dtype) (bucket_cap_mb_ : Z)
         (module_wrap_ module_auto_wrap_ : bool) (min_num_params_ : Z)
         (parallel_devices_ : option (list device)) (num_nodes_ : option Z)
         (cluster_environment_ : option ClusterEnvironment)
         (sync_batchnorm_ : option bool) (p : FullyShardedPlugin),
    __init__ available cpu_offload_ flatten_parameters_ reshard_after_forward_
             move_grads_to_cpu_ fp32_reduce_scatter_ compute_dtype_
             bucket_cap_mb_ module_wrap_ module_auto_wrap_ min_num_params_
             parallel_devices_ num_nodes_ cluster_environment_ sync_batchnorm_
    = inr p ->
    module_wrap p = false /\ module_auto_wrap p = false
    /\ forall (x : Ext) (cs : list Call),
         let s := run_calls cs (fresh p x) in
         module_wrapped (self s) = false
         /\ (forall a : Args,
               training_step a s = model_call training a s
               /\ validation_step a s = model_call validation a s
               /\ test_step a s = model_call test a s
               /\ predict_step a s = model_call predict a s)
         /\ (forall s', same_config (self s) (self s') ->
                        wrap_whole_module s' = (inr tt, s'))
         /\ no_wrap_event (trace s) = true.
Proof.
  intros until p. intros Hinit.
  destruct (init_returns _ _ _ _ _ _ _ _ _ _ _ _ _ _ _ _ Hinit) as (Ew & Ea & _).
  split; [exact Ew|]. split; [exact Ea|].
  intros x cs s.
  destruct (unwrapped_lifetime p x cs Ew Ea) as (Ew' & Ea' & Hno).
  fold s in Ew', Ea', Hno.
  assert (W : module_wrapped (self s) = false)
    by (unfold module_wrapped; now rewrite Ew', Ea').
  split; [exact W|]. split; [|split; [|exact Hno]].
  - intros a.
    unfold training_step, validation_step, test_step, predict_step, bind, get_self.
    cbn. rewrite W. repeat split; reflexivity.
  - intros s' C. apply wrap_whole_module_skipped.
    now rewrite (same_config_module_wrapped _ _ C).
Qed.

(** *** The communication group *)

(** C9: in every state of the lifetime of a constructed instance at most
    one group has been created.  An access to the property returns a group
    [g] and leaves it in the memo cell; if the cell was empty this access is
    the one that creates the group, and no group had been created before; if
    it was filled the access returns the stored group and changes nothing.
    Whatever is called afterwards, a later access returns the same [g], leaves
    the state as it is, and the number of groups created remains one. *)
Theorem process_group_memoized :
  forall (available cpu_offload_ flatten_parameters_ reshard_after_forward_ : bool)
         (move_grads_to_cpu_ fp32_reduce_scatter_ : option bool)
         (compute_dtype_ : option Dtype) (bucket_cap_mb_ : Z)
         (module_wrap_ module_auto_wrap_ : bool) (min_num_params_ : Z)
         (parallel_devices_ : option (list device)) (num_nodes_ : option Z)
         (cluster_environment_ : option ClusterEnvironment)
         (sync_batchnorm_ : option bool) (p : FullyShardedPlugin),
    __init__ available cpu_offload_ flatten_parameters_ reshard_after_forward_
             move_grads_to_cpu_ fp32_reduce_scatter_ compute_dtype_
             bucket_cap_mb_ module_wrap_ module_auto_wrap_ min_num_params_
             parallel_devices_ num_nodes_ cluster_environment_ sync_batchnorm_
    = inr p ->
    forall (x : Ext) (cs : list Call),
      let s := run_calls cs (fresh p x) in
      let s1 := exec process_group s in
      groups_created (trace s) <= 1
      /\ exists g : ProcessGroup,
           fst (process_group s) = inr g
           /\ _process_group (self s1) = Some g
           /\ (_process_group (self s) = None ->
               groups_created (trace s) = 0
               /\ g = fst (new_group (ext s))
               /\ trace s1 = trace s ++ [new_group_called g])
           /\ (forall g', _process_group (self s) = Some g' -> g = g' /\ s1 = s)
           /\ forall cs' : list Call,
                let s2 := run_calls cs' s1 in
                process_group s2 = (inr g, s2)
                /\ groups_created (trace s2) = 1.
Proof.
  intros until p. intros Hinit x cs s s1.
  destruct (init_returns _ _ _ _ _ _ _ _ _ _ _ _ _ _ _ _ Hinit) as (_ & _ & Hnone & _).
  pose proof (run_calls_evolves cs (fresh p x)) as Hs. fold s in Hs.
  assert (Hlater : forall g, _process_group (self s1) = Some g ->
            forall cs', let s2 := run_calls cs' s1 in
                        process_group s2 = (inr g, s2)
                        /\ groups_created (trace s2) = 1).
  { intros g Hg cs' s2.
    pose proof (run_calls_evolves cs' s1) as H12. fold s2 in H12.
    assert (H01 : evolves (fresh p x) s1)
      by (apply evolves_trans with s; [exact Hs | apply evolving_process_group]).
    destruct H12 as [_ (l' & _ & _ & M')]. rewrite Hg in M'. cbn in M'.
    destruct M' as [Hg2 _]. split.
    - rewrite process_group_eq, Hg2. reflexivity.
    - pose proof (run_calls_evolves cs' s1) as H12. fold s2 in H12.
      destruct (evolves_trans _ _ _ H01 H12) as [_ (l & T & _ & M)].
      cbn in T, M. rewrite Hnone, Hg2 in M. cbn in M. rewrite T.
      destruct M as [[E _]|(g0 & _ & N)]; [discriminate E | exact N]. }
  destruct Hs as [_ (l & T & _ & M)]. cbn in T, M. rewrite Hnone in M. cbn in M.
  split.
  { rewrite T. destruct M as [[_ ->]|(g0 & _ & ->)]; lia. }
  pose proof (process_group_eq s) as PE.
  destruct (_process_group (self s)) as [g|] eqn:G.
  - assert (E1 : s1 = s) by (unfold s1, exec; now rewrite PE).
    exists g.
    split; [now rewrite PE|].
    split; [now rewrite E1|].
    split; [discriminate|].
    split; [intros g' [= ->]; now split|].
    apply Hlater. now rewrite E1.
  - cbv zeta in PE.
    assert (Hs1 : _process_group (self s1) = Some (fst (new_group (ext s))))
      by (unfold s1, exec; now rewrite PE).
    exists (fst (new_group (ext s))).
    split; [now rewrite PE|].
    split; [exact Hs1|].
    split.
    { intros _. split; [|split; [reflexivity|]].
      - rewrite T. destruct M as [[_ ->]|(g0 & E & _)]; [reflexivity|discriminate E].
      - unfold s1, exec. now rewrite PE. }
    split; [discriminate|].
    now apply Hlater.
Qed.

End Lifetime.

(** * The properties at work in the small world *)

Module DemoFacts.
Import DemoRun.

#[local] Existing Instance Demo.collaborators.

(** The constructor call [FullyShardedPlugin(parallel_devices=[cuda0])]. *)
Lemma init_defaults :
  __init__ true false true true None None None 25 false false 100000000
           (Some [Demo.cuda0]) None None None
  = inr defaults.
Proof. reflexivity. Qed.

(** The example of the specification: the keys [module.layer.weight] and
    [module.layer.bias] of a whole-wrapped model come back as [layer.weight]
    and [layer.bias], with their values. *)
Example collate_whole_wrapped :
  fst (state_dict (model (self whole_wrapped)) (ext whole_wrapped))
  = [("module.layer.weight", 1%Z); ("module.layer.bias", 2%Z)]
  /\ fst (collate_state_dict whole_wrapped)
     = inr [("layer.weight", 1%Z); ("layer.bias", 2%Z)].
Proof. split; reflexivity. Qed.

Lemma collate_state_dict_strips_prefix_witness :
  model (self DemoMore.manual_configured)
  = Demo.Sharded (Demo.LightningWrapper (Demo.Container Demo.Linear))
  /\ fst (state_dict (model (self DemoMore.manual_configured))
                     (ext DemoMore.manual_configured))
     = [("module.layer.weight", 1%Z); ("module.layer.bias", 2%Z)]
  /\ fst (collate_state_dict DemoMore.manual_configured)
     = inr (spec_rekey [("module.layer.weight", 1%Z); ("module.layer.bias", 2%Z)])
  /\ spec_rekey [("module.layer.weight", 1%Z); ("module.layer.bias", 2%Z)]
     = [("layer.weight", 1%Z); ("layer.bias", 2%Z)].
Proof.
  split; [reflexivity|]. split; [reflexivity|]. split; [|reflexivity].
  apply (collate_state_dict_strips_prefix DemoMore.manual_configured).
  - reflexivity.
  - repeat constructor; cbn; intuition discriminate.
  - repeat constructor.
  - reflexivity.
Defined.

(** The re-keying at work in a call that returns: on the model wrapped as a
    whole by [configure_ddp] the keys lose their wrapper prefix. *)
Lemma strip_key_partitions_witness :
  module_wrapped (self DemoMore.manual_configured) = true
  /\ fst (collate_state_dict DemoMore.manual_configured)
     = inr (PyDict.comprehension strip_key
              [("module.layer.weight", 1%Z); ("module.layer.bias", 2%Z)])
  /\ PyDict.comprehension strip_key
       [("module.layer.weight", 1%Z); ("module.layer.bias", 2%Z)]
     = [("layer.weight", 1%Z); ("layer.bias", 2%Z)].
Proof.
  split; [reflexivity|]. split; [|reflexivity].
  apply (proj1 (proj2 (proj2 (proj2 (proj2 strip_key_partitions))))
           DemoMore.manual_configured); reflexivity.
Defined.

Lemma collate_state_dict_unwrapped_unmodified_witness :
  module_wrapped (self unwrapped) = false
  /\ fst (collate_state_dict unwrapped)
     = inr [("layer.weight", 1%Z); ("layer.bias", 2%Z)].
Proof.
  split; [reflexivity|].
  apply (collate_state_dict_unwrapped_unmodified unwrapped); reflexivity.
Defined.

Lemma constructed_instance_never_wrapped_witness :
  __init__ true false true true None None None 25 false false 100000000
           (Some [Demo.cuda0]) None None None = inr defaults
  /\ module_wrapped (self (run_calls session (fresh defaults Demo.world0))) = false
  /\ no_wrap_event (trace (run_calls session (fresh defaults Demo.world0))) = true.
Proof.
  split; [reflexivity|].
  pose proof (constructed_instance_never_wrapped
                true false true true None None None 25 false false 100000000
                (Some [Demo.cuda0]) None None None defaults eq_refl) as (_ & _ & H).
  destruct (H Demo.world0 session) as (H1 & _ & _ & H2).
  split; [exact H1 | exact H2].
Defined.

Lemma process_group_memoized_witness :
  __init__ true false true true None None None 25 false false 100000000
           (Some [Demo.cuda0]) None None None = inr defaults
  /\ groups_created (trace (run_calls session (fresh defaults Demo.world0))) <= 1.
Proof.
  split; [reflexivity|].
  exact (proj1 (process_group_memoized
                  true false true true None None None 25 false false 100000000
                  (Some [Demo.cuda0]) None None None defaults eq_refl Demo.world0 session)).
Defined.

(** The group created on the first access is the one every later access
    returns, and the trace of the session holds a single creation. *)
Example session_creates_one_group :
  let s := run_calls session (fresh defaults Demo.world0) in
  _process_group (self s) = Some 0
  /\ fst (process_group s) = inr 0
  /\ filter is_new_group (trace s) = [new_group_called 0].
Proof. repeat split; reflexivity. Qed.

(** Every run of the small world has its device: the session pins and
    moves to [cuda0], and the marker [Demo.no_device] is never reached. *)
Example session_runs_on_cuda0 :
  let t := trace (run_calls session (fresh defaults Demo.world0)) in
  In (cuda_set_device_called Demo.cuda0) t
  /\ filter is_to t
     = [to_called (Demo.Container Demo.Linear) Demo.cuda0;
        to_called (Demo.Container Demo.Linear) Demo.cuda0].
Proof. split; [cbn; auto | reflexivity]. Qed.

(** Without CPU offload both handles are moved; with it nothing is. *)
Example configure_ddp_moves :
  filter is_to (trace (exec configure_ddp unwrapped))
  = [to_called (Demo.Container Demo.Linear) Demo.cuda0;
     to_called (Demo.Container Demo.Linear) Demo.cuda0]
  /\ filter is_to (trace (exec configure_ddp offloaded)) = [].
Proof. split; reflexivity. Qed.

(** If the operator quits at the prompt, [collate_state_dict] does not
    return. *)
Example collate_operator_quits :
  fst (collate_state_dict
         (fresh (with_flags false false (Demo.Container Demo.Linear))
                Demo.world_quit))
  = inl BdbQuit.
Proof. reflexivity. Qed.

Example steps_in_the_small_world :
  fst (training_step 5 unwrapped) = inr 6
  /\ fst (training_step 5 whole_wrapped) = inr 7
  /\ trace (exec (predict_step 5) unwrapped)
     = [model_step_called predict (Demo.Container Demo.Linear) 5]
  /\ trace (exec (predict_step 5) whole_wrapped) = [super_step_called predict 5].
Proof. repeat split; reflexivity. Qed.

End DemoFacts.

(** * Further properties *)

(** ** Dictionaries: assignment, lookup and the comprehension in general *)

Module PyDictMore.
Import PyDict.

Section Facts.
Context {V : Type}.
Implicit Types (d acc : PyDict.t V) (k : string) (v : V).

Lemma get_set_same k v d : get k (set k v d) = Some v.
Proof.
  induction d as [|[k' v'] d IH]; cbn.
  - now rewrite String.eqb_refl.
  - destruct (String.eqb_spec k k') as [->|N]; cbn.
    + now rewrite String.eqb_refl.
    + destruct (String.eqb_spec k k'); [contradiction | exact IH].
Qed.

Lemma get_set_other k k0 v d : k0 <> k -> get k0 (set k v d) = get k0 d.
Proof.
  intros N. induction d as [|[k' v'] d IH]; cbn.
  - destruct (String.eqb_spec k0 k); [contradiction | reflexivity].
  - destruct (String.eqb_spec k k') as [->|N']; cbn.
    + destruct (String.eqb_spec k0 k'); [contradiction | reflexivity].
    + destruct (String.eqb_spec k0 k'); [reflexivity | exact IH].
Qed.

Lemma keys_set_present k v d : In k (keys d) -> keys (set k v d) = keys d.
Proof.
  induction d as [|[k' v'] d IH]; cbn; [easy|].
  intros I. destruct (String.eqb_spec k k') as [->|N]; cbn; [reflexivity|].
  f_equal. apply IH. destruct I as [E|I]; [now elim N | exact I].
Qed.

Lemma keys_set_absent k v d : ~ In k (keys d) -> keys (set k v d) = keys d ++ [k].
Proof.
  intros N. rewrite PyDictFacts.set_new_key by exact N.
  unfold keys. now rewrite map_app.
Qed.

Lemma in_keys_set k k0 v d :
  In k0 (keys (set k v d)) <-> k0 = k \/ In k0 (keys d).
Proof.
  destruct (in_dec string_dec k (keys d)) as [I|N].
  - rewrite keys_set_present by exact I. split; [now right|].
    intros [->|I0]; trivial.
  - rewrite keys_set_absent by exact N. rewrite in_app_iff. cbn.
    split; [intros [I0|[E|[]]] | intros [E|I0]]; auto.
Qed.

(** Assignment keeps a dictionary well formed. *)
Lemma wf_set k v d : wf d -> wf (set k v d).
Proof.
  unfold wf. intros W. destruct (in_dec string_dec k (keys d)) as [I|N].
  - now rewrite keys_set_present.
  - rewrite keys_set_absent by exact N.
    apply NoDup_app; [exact W | repeat constructor; easy |].
    intros x Ix [<-|[]]. contradiction.
Qed.

Lemma length_set k v d : List.length (set k v d) <= S (List.length d).
Proof.
  induction d as [|[k' v'] d IH]; cbn; [lia|].
  destruct (String.eqb k k'); cbn; lia.
Qed.

Lemma get_key_present k d : In k (keys d) -> exists v, get k d = Some v.
Proof.
  induction d as [|[k' v'] d IH]; cbn; [easy|].
  intros I. destruct (String.eqb_spec k k') as [->|N]; [now eexists|].
  apply IH. destruct I as [E|I]; [now elim N | exact I].
Qed.

Lemma get_app k d1 d2 :
  get k (d1 ++ d2) = match get k d1 with Some v => Some v | None => get k d2 end.
Proof.
  induction d1 as [|[k' v'] d1 IH]; cbn; [reflexivity|].
  destruct (String.eqb k k'); [reflexivity | exact IH].
Qed.

(** The loop of the comprehension over any list of keys of [d]. *)
Lemma loop_wf f d ks acc :
  wf acc ->
  wf (fold_left (fun acc k => match get k d with
                              | Some v => set (f k) v acc
                              | None => acc
                              end) ks acc).
Proof.
  revert acc. induction ks as [|k ks IH]; intros acc W; cbn; [exact W|].
  apply IH. destruct (get k d); [now apply wf_set | exact W].
Qed.

Lemma loop_length f d ks acc :
  List.length (fold_left (fun acc k => match get k d with
                                       | Some v => set (f k) v acc
                                       | None => acc
                                       end) ks acc)
  <= List.length acc + List.length ks.
Proof.
  revert acc. induction ks as [|k ks IH]; intros acc; cbn; [lia|].
  specialize (IH (match get k d with Some v => set (f k) v acc | None => acc end)).
  destruct (get k d) as [v|]; [pose proof (length_set (f k) v acc)|]; lia.
Qed.

Lemma loop_keys f d ks acc k0 :
  incl ks (keys d) ->
  In k0 (keys (fold_left (fun acc k => match get k d with
                                       | Some v => set (f k) v acc
                                       | None => acc
                                       end) ks acc))
  <-> In k0 (keys acc) \/ exists k, In k ks /\ f k = k0.
Proof.
  revert acc. induction ks as [|k ks IH]; intros acc Hin; cbn.
  - split; [now left | intros [I|(k & [] & _)]; exact I].
  - assert (Hk : In k (keys d)) by (apply Hin; now left).
    assert (Hks : incl ks (keys d)) by (intros x Ix; apply Hin; now right).
    destruct (get_key_present k d Hk) as [v ->].
    rewrite (IH (set (f k) v acc) Hks), in_keys_set. split.
    + intros [[->|I]|(k1 & I1 & E1)].
      * right. exists k. auto.
      * now left.
      * right. exists k1. auto.
    + intros [I|(k1 & [->|I1] & E1)].
      * left. now right.
      * left. now left.
      * right. exists k1. auto.
Qed.

(** On a well-formed dictionary the loop over the keys is the loop over the
    entries. *)
Lemma loop_entries f d l acc :
  wf d -> incl l d ->
  fold_left (fun acc k => match get k d with
                          | Some v => set (f k) v acc
                          | None => acc
                          end) (keys l) acc
  = fold_left (fun acc kv => set (f (fst kv)) (snd kv) acc) l acc.
Proof.
  intros W. revert acc. induction l as [|[k v] l IH]; intros acc Hin; cbn;
    [reflexivity|].
  rewrite (PyDictFacts.get_entry k v d W) by (apply Hin; now left).
  apply IH. intros x Ix. apply Hin. now right.
Qed.

(** After the loop a key holds the value of the last entry assigned to it. *)
Lemma loop_last_wins f l acc k0 :
  get k0 (fold_left (fun acc kv => set (f (fst kv)) (snd kv) acc) l acc)
  = match get k0 (rev (rekey f l)) with
    | Some v => Some v
    | None => get k0 acc
    end.
Proof.
  revert acc. unfold rekey.
  induction l as [|[k v] l IH]; intros acc; cbn; [reflexivity|].
  rewrite IH, get_app. cbn.
  destruct (get k0 (rev (map _ l))); [reflexivity|].
  destruct (String.eqb_spec k0 (f k)) as [->|N].
  - apply get_set_same.
  - now apply get_set_other.
Qed.

End Facts.
End PyDictMore.

(** ** The sharding context, the wrap and the dispatch *)

Section Dispatch.

Context {R : Collaborators}.

Lemma process_group_yields (s : State) : fst (process_group s) = inr (group_of s).
Proof.
  rewrite process_group_eq. unfold group_of.
  destruct (_process_group (self s)); reflexivity.
Qed.

Lemma process_group_stores (s : State) :
  self (exec process_group s) = set__process_group (Some (group_of s)) (self s).
Proof.
  unfold exec, group_of. rewrite process_group_eq.
  destruct (_process_group (self s)) eqn:G; cbn; [|reflexivity].
  destruct (self s); cbn in *. now rewrite G.
Qed.

(** The sharding context in closed form, for any body. *)
Lemma model_sharded_context_run {A : Type} (body : M A) (s : State) :
  model_sharded_context body s
  = (fst (body (scope_entered s)), scope_exited (exec body (scope_entered s))).
Proof.
  unfold scope_entered, scope_exited, exec, group_of, kwargs_of.
  unfold model_sharded_context, lightning_module, bind, get_self, ask.
  cbn -[process_group].
  rewrite process_group_eq.
  destruct (_process_group (self s)) as [g|]; cbn;
    unfold finally, call_, call; cbn;
    match goal with |- context [body ?x] => destruct (body x) end;
    reflexivity.
Qed.

(** X2: the sharding context is exception safe.  Whatever the body does,
    the context hands back the outcome of the body, an exception included,
    and the exit of the wrap scope is the last call it makes; the body runs
    right after the scope has been entered. *)
Theorem sharding_scope_always_exited :
  forall (A : Type) (body : M A) (s : State),
  exists s2 kw,
    trace s2 = trace (exec process_group s) ++ [enable_wrap_entered kw]
    /\ fst (model_sharded_context body s) = fst (body s2)
    /\ (forall e, fst (body s2) = inl e ->
                  fst (model_sharded_context body s) = inl e)
    /\ trace (exec (model_sharded_context body) s)
       = trace (exec body s2) ++ [enable_wrap_exited]
    /\ ext (exec (model_sharded_context body) s)
       = enable_wrap_exit (ext (exec body s2))
    /\ self (exec (model_sharded_context body) s) = self (exec body s2).
Proof.
  intros A body s. exists (scope_entered s).
  eexists. split; [reflexivity|].
  unfold exec. rewrite model_sharded_context_run. cbn [fst snd].
  split; [reflexivity|]. split; [intros e E; exact E|].
  repeat split; reflexivity.
Qed.


(** [setup_distributed] first runs the setup of the base strategy and
    then reads the root device; it pins the device with
    [torch.cuda.set_device] exactly when the type of the root device is
    ['cuda'], and on any other device makes no further call.  The instance is
    left as it is. *)
Lemma setup_distributed_pins_cuda_only :
  forall s : State,
    let x1 := super_setup_distributed (ext s) in
    let d := root_device (parallel_devices (self s)) x1 in
    let cuda := String.eqb (device_type d) "cuda" in
    setup_distributed s
    = (inr tt,
       {| self := self s;
          ext := if cuda then cuda_set_device d x1 else x1;
          trace := trace s ++ super_setup_distributed_called
                           :: (if cuda then [cuda_set_device_called d] else []) |}).
Proof.
  intros s x1 d cuda.
  unfold setup_distributed, self_root_device, bind, get_self, ask, call_, call, ret.
  cbn. fold x1. fold d. fold cuda.
  destruct cuda; cbn; [|reflexivity].
  now rewrite <- app_assoc.
Qed.

(** *** When the whole module is wrapped *)

(** [configure_ddp] in closed form: the body of the [with] statement runs
    inside the scope, then the end of the method runs. *)
Lemma configure_ddp_run (s : State) :
  configure_ddp s
  = configure_ddp_finish (scope_exited (exec wrap_whole_module (scope_entered s))).
Proof.
  unfold configure_ddp, configure_ddp_wrap, bind.
  rewrite model_sharded_context_run.
  now rewrite (proj1 (wrap_whole_module_spec (scope_entered s))).
Qed.

Lemma configure_ddp_returns (s : State) : fst (configure_ddp s) = inr tt.
Proof.
  rewrite configure_ddp_run, configure_ddp_finish_eq. cbv zeta.
  now destruct (cpu_offload _).
Qed.

(** X4: the body of the [with] statement of [configure_ddp] wraps the model
    exactly when [module_wrap] is set, or [module_auto_wrap] is set and the
    model holds no sharded module.  Otherwise it does nothing at all.  When
    it wraps, its first call builds the Lightning wrapper around the current
    model, every call it makes is a wrap call, and [auto_wrap] is used
    exactly when auto-wrap is set on a model without sharded module, also if
    [module_wrap] is set as well. *)
Theorem whole_module_wrap_decision :
  forall s : State,
    let nested :=
      existsb (fun m => is_FullyShardedDataParallel m (ext s))
              (modules (model (self s)) (ext s)) in
    let auto := module_auto_wrap (self s) && negb nested in
    if module_wrap (self s) || auto then
      exists l,
        trace (exec wrap_whole_module s)
        = trace s ++ LightningFullyShardedModule_called (model (self s)) :: l
        /\ l <> []
        /\ forallb is_wrap_event l = true
        /\ ((exists m, In (auto_wrap_called m) l) <-> auto = true)
    else wrap_whole_module s = (inr tt, s).
Proof.
  intros s. cbv zeta.
  unfold exec, wrap_whole_module, and_not, _model_has_nested_fsdp, rebind_model,
    bind, get_self, ask, call, modify_self, ret.
  cbn.
  destruct (module_auto_wrap (self s)) eqn:Ea; cbn.
  - destruct (existsb _ (modules (model (self s)) (ext s))); cbn.
    + rewrite orb_false_r. destruct (module_wrap (self s)) eqn:Ew; cbn;
        [|reflexivity].
      eexists. split; [now rewrite <- app_assoc|].
      split; [discriminate|]. split; [reflexivity|].
      split; [intros (m & [E|[]]); discriminate E | discriminate].
    + rewrite orb_true_r.
      destruct (is_FullyShardedDataParallel _ _) eqn:Ef; cbn;
        (eexists; split; [now rewrite <- ?app_assoc|];
         split; [discriminate|]; split; [reflexivity|];
         split; [reflexivity | intros _; eexists; left; reflexivity]).
  - rewrite orb_false_r. destruct (module_wrap (self s)) eqn:Ew; cbn;
      [|reflexivity].
    eexists. split; [now rewrite <- app_assoc|].
    split; [discriminate|]. split; [reflexivity|].
    split; [intros (m & [E|[]]); discriminate E | discriminate].
Qed.

(** Inside a wrap scope in which [wrap] yields a sharded wrapper, the body
    of the [with] statement leaves a sharded wrapper whenever it wraps. *)
Lemma wrap_whole_module_sharded (inside : Ext -> Prop) (s : State) :
  (forall m x, inside x -> inside (snd (LightningFullyShardedModule m x))) ->
  (forall m x, inside x -> inside (snd (auto_wrap m x))) ->
  (forall m x, inside x ->
               is_FullyShardedDataParallel (fst (wrap m x)) (snd (wrap m x)) = true) ->
  inside (ext s) ->
  module_wrap (self s)
  || (module_auto_wrap (self s)
      && negb (existsb (fun m => is_FullyShardedDataParallel m (ext s))
                       (modules (model (self s)) (ext s)))) = true ->
  is_FullyShardedDataParallel (model (self (exec wrap_whole_module s)))
                              (ext (exec wrap_whole_module s)) = true.
Proof.
  intros Hlfsm Hauto Hwrap Hin Hdec.
  unfold exec, wrap_whole_module, and_not, _model_has_nested_fsdp, rebind_model,
    bind, get_self, ask, call, modify_self, ret.
  cbn.
  destruct (module_auto_wrap (self s)) eqn:Ea; cbn in *.
  - destruct (existsb _ _) eqn:En; cbn in *.
    + rewrite orb_false_r in Hdec. rewrite Hdec. cbn. auto.
    + destruct (is_FullyShardedDataParallel (fst (auto_wrap _ _)) _) eqn:Ef; cbn;
        [exact Ef | auto].
  - rewrite orb_false_r in Hdec. rewrite Hdec. cbn. auto.
Qed.

(** When auto-wrap applies and [auto_wrap] hands back a module that is not a
    sharded wrapper, the body wraps that module once more. *)
Lemma wrap_whole_module_wraps_again (s : State) :
  let r1 := LightningFullyShardedModule (model (self s)) (ext s) in
  let r2 := auto_wrap (fst r1) (snd r1) in
  let r3 := wrap (fst r2) (snd r2) in
  module_auto_wrap (self s) = true ->
  existsb (fun m => is_FullyShardedDataParallel m (ext s))
          (modules (model (self s)) (ext s)) = false ->
  is_FullyShardedDataParallel (fst r2) (snd r2) = false ->
  wrap_whole_module s
  = (inr tt,
     {| self := set_model (fst r3) (self s);
        ext := snd r3;
        trace := trace s ++ [LightningFullyShardedModule_called (model (self s));
                             auto_wrap_called (fst r1);
                             wrap_called (fst r2)] |}).
Proof.
  cbv zeta. intros Ea En Ef.
  unfold wrap_whole_module, and_not, _model_has_nested_fsdp, rebind_model,
    bind, get_self, ask, call, modify_self, ret.
  cbn. rewrite Ea. cbn. rewrite En. cbn. rewrite Ef. cbn.
  rewrite <- !app_assoc. cbn [app]. destruct (self s); reflexivity.
Qed.

(** X5: what the defensive second wrap is for.  Take any notion of being
    inside a wrap scope that holds once [enable_wrap] is entered, that the
    construction of the Lightning wrapper and [auto_wrap] do not leave, and
    inside of which [wrap] yields a sharded wrapper.  Then whenever the body
    of the [with] statement of [configure_ddp] wraps (manual wrap, or
    auto-wrap on a model without sharded module), the model it leaves is a
    sharded wrapper, whatever [auto_wrap] returned; and if [auto_wrap]
    returned a module that is not a sharded wrapper, the last call of the
    body is the [wrap] of that module, whose result becomes the model. *)
Theorem wrapped_model_is_sharded :
  forall inside : Ext -> Prop,
    (forall kw x, inside (enable_wrap_enter kw x)) ->
    (forall m x, inside x -> inside (snd (LightningFullyShardedModule m x))) ->
    (forall m x, inside x -> inside (snd (auto_wrap m x))) ->
    (forall m x, inside x ->
                 is_FullyShardedDataParallel (fst (wrap m x)) (snd (wrap m x)) = true) ->
    forall s : State,
      let s2 := scope_entered s in
      let s' := exec wrap_whole_module s2 in
      let auto :=
        module_auto_wrap (self s)
        && negb (existsb (fun m => is_FullyShardedDataParallel m (ext s2))
                         (modules (model (self s)) (ext s2))) in
      let r1 := LightningFullyShardedModule (model (self s)) (ext s2) in
      let r2 := auto_wrap (fst r1) (snd r1) in
      module_wrap (self s) || auto = true ->
      is_FullyShardedDataParallel (model (self s')) (ext s') = true
      /\ (auto = true ->
          is_FullyShardedDataParallel (fst r2) (snd r2) = false ->
          model (self s') = fst (wrap (fst r2) (snd r2))
          /\ trace s'
             = trace s2 ++ [LightningFullyShardedModule_called (model (self s));
                            auto_wrap_called (fst r1);
                            wrap_called (fst r2)]).
Proof.
  intros inside Henter Hlfsm Hauto Hwrap s s2 s' auto r1 r2 Hdec.
  assert (Hself : self s2 = set__process_group (Some (group_of s)) (self s))
    by apply process_group_stores.
  assert (Hm : model (self s2) = model (self s)) by now rewrite Hself.
  assert (Hw : module_wrap (self s2) = module_wrap (self s)) by now rewrite Hself.
  assert (Ha : module_auto_wrap (self s2) = module_auto_wrap (self s))
    by now rewrite Hself.
  split.
  - apply (wrap_whole_module_sharded inside); auto.
    + apply Henter.
    + rewrite Hw, Ha, Hm. exact Hdec.
  - intros Hauto_t Hnot. subst auto.
    apply andb_prop in Hauto_t as [Eauto Enest].
    apply negb_true_iff in Enest.
    pose proof (wrap_whole_module_wraps_again s2) as E. cbv zeta in E.
    rewrite Hm in E. fold r1 r2 in E.
    specialize (E (eq_trans Ha Eauto) Enest Hnot).
    unfold s', exec. rewrite E. cbn. split; reflexivity.
Qed.

Lemma wrap_events_process_group (s : State) :
  filter is_wrap_event (trace (exec process_group s))
  = filter is_wrap_event (trace s).
Proof.
  unfold exec. rewrite process_group_eq.
  destruct (_process_group (self s)); cbn; [reflexivity|].
  rewrite filter_app. cbn. apply app_nil_r.
Qed.

Lemma wrap_events_finish (s : State) :
  filter is_wrap_event (trace (exec configure_ddp_finish s))
  = filter is_wrap_event (trace s).
Proof.
  unfold exec. rewrite configure_ddp_finish_eq. cbv zeta.
  destruct (cpu_offload (self s)); cbn; rewrite !filter_app; cbn;
    now rewrite !app_nil_r.
Qed.

Lemma model_after_finish (s : State) :
  self (exec configure_ddp_finish s) = self s.
Proof.
  unfold exec. rewrite configure_ddp_finish_eq. cbv zeta.
  now destruct (cpu_offload (self s)).
Qed.

(** [configure_ddp] when the body of the [with] statement does nothing in
    the scope. *)
Lemma configure_ddp_without_wrap (s : State) :
  wrap_whole_module (scope_entered s) = (inr tt, scope_entered s) ->
  model (self (exec configure_ddp s)) = model (self s)
  /\ filter is_wrap_event (trace (exec configure_ddp s))
     = filter is_wrap_event (trace s).
Proof.
  intros Hskip.
  assert (E : exec configure_ddp s
              = exec configure_ddp_finish (scope_exited (scope_entered s))).
  { unfold exec. rewrite configure_ddp_run. unfold exec. now rewrite Hskip. }
  rewrite E, model_after_finish, wrap_events_finish. cbn.
  rewrite process_group_stores. split; [reflexivity|].
  rewrite !filter_app. cbn. rewrite !app_nil_r.
  apply wrap_events_process_group.
Qed.

Lemma wrap_whole_module_nested (s : State) :
  module_auto_wrap (self s) = true ->
  module_wrap (self s) = false ->
  existsb (fun m => is_FullyShardedDataParallel m (ext s))
          (modules (model (self s)) (ext s)) = true ->
  wrap_whole_module s = (inr tt, s).
Proof.
  intros Ea Ew En.
  unfold wrap_whole_module, and_not, _model_has_nested_fsdp,
    bind, get_self, ask, ret.
  cbn. rewrite Ea. cbn. rewrite En. cbn. now rewrite Ew.
Qed.


(** *** [pre_dispatch] *)

(** The state in which [pre_dispatch] calls [configure_ddp]. *)
Lemma pre_dispatch_run (s : State) :
  let r := configure_sync_batchnorm (model (self s)) (ext s) in
  let s0 :=
    if truthy (sync_batchnorm (self s)) then
      {| self := set_model (fst r) (self s); ext := snd r;
         trace := trace s ++ [configure_sync_batchnorm_called (model (self s))] |}
    else s in
  let s1 := exec configure_ddp s0 in
  pre_dispatch s
  = (inr tt,
     {| self := self s1; ext := barrier (ext s1);
        trace := trace s1 ++ [barrier_called] |}).
Proof.
  cbv zeta. unfold pre_dispatch, rebind_model, bind, get_self, modify_self, call_, call.
  cbn. unfold exec.
  destruct (truthy (sync_batchnorm (self s))); cbn;
    match goal with |- context [configure_ddp ?x] =>
      pose proof (configure_ddp_returns x) as Hret;
      destruct (configure_ddp x) as [[e|[]] s1]
    end; cbn in *; first [discriminate Hret | reflexivity].
Qed.

Lemma configure_ddp_ends_with_optimizers (s : State) :
  exists l lm, trace (exec configure_ddp s) = l ++ [setup_optimizers_called lm].
Proof.
  unfold exec. rewrite configure_ddp_run, configure_ddp_finish_eq. cbv zeta.
  destruct (cpu_offload _); cbn; eexists; eexists; reflexivity.
Qed.

(** X7: whenever [pre_dispatch] returns, its last two calls are the
    optimizer setup and then the barrier, so a process passes the barrier
    only after it has wrapped its model and built its optimizers.  The model
    is converted to synchronized batch normalization exactly when
    [sync_batchnorm] is [True]: [None] and [False] leave it alone, and then
    the first thing [pre_dispatch] does is [configure_ddp]. *)
Theorem pre_dispatch_ends_with_barrier :
  forall s : State,
    fst (pre_dispatch s) = inr tt ->
    (exists l lm,
       trace (exec pre_dispatch s)
       = l ++ [setup_optimizers_called lm; barrier_called])
    /\ (sync_batchnorm (self s) <> Some true ->
        trace (exec pre_dispatch s)
        = trace (exec configure_ddp s) ++ [barrier_called])
    /\ (sync_batchnorm (self s) = Some true ->
        exists l,
          trace (exec pre_dispatch s)
          = trace s ++ configure_sync_batchnorm_called (model (self s)) :: l).
Proof.
  intros s _. pose proof (pre_dispatch_run s) as E. cbv zeta in E.
  remember (if truthy (sync_batchnorm (self s)) then _ else s) as s0 eqn:Es0.
  assert (Et : trace (exec pre_dispatch s)
               = trace (exec configure_ddp s0) ++ [barrier_called])
    by (unfold exec at 1; now rewrite E).
  rewrite Et. split; [|split].
  - destruct (configure_ddp_ends_with_optimizers s0) as (l & lm & ->).
    exists l, lm. now rewrite <- app_assoc.
  - intros N. destruct (sync_batchnorm (self s)) as [[|]|]; cbn in Es0;
      [now elim N | now subst s0 | now subst s0].
  - intros Hs. rewrite Hs in Es0. cbn in Es0.
    destruct (evolving_configure_ddp s0) as [_ (l & T & _)].
    rewrite T, Es0. cbn. eexists. rewrite <- !app_assoc. reflexivity.
Qed.

(** *** [on_save] *)

(** X8: when [on_save] returns, the checkpoint it returns binds
    ['state_dict'] to the collated state dict and every other key to what it
    was bound to before; the keys keep their order, ['state_dict'] being
    added at the end if it was not there; and a well-formed checkpoint stays
    well formed.  If the collation raises, [on_save] raises the same
    exception. *)
Theorem on_save_replaces_state_dict_only :
  forall (checkpoint : PyDict.t CheckpointValue) (s : State),
    (forall e, fst (collate_state_dict s) = inl e ->
               fst (on_save checkpoint s) = inl e)
    /\ forall d, fst (collate_state_dict s) = inr d ->
         exists checkpoint',
           fst (on_save checkpoint s) = inr checkpoint'
           /\ PyDict.get "state_dict" checkpoint' = Some (StateDictValue d)
           /\ (forall k, k <> "state_dict" ->
                         PyDict.get k checkpoint' = PyDict.get k checkpoint)
           /\ (In "state_dict" (PyDict.keys checkpoint) ->
               PyDict.keys checkpoint' = PyDict.keys checkpoint)
           /\ (~ In "state_dict" (PyDict.keys checkpoint) ->
               PyDict.keys checkpoint' = PyDict.keys checkpoint ++ ["state_dict"])
           /\ (PyDict.wf checkpoint -> PyDict.wf checkpoint').
Proof.
  intros checkpoint s. unfold on_save, bind, ret.
  destruct (collate_state_dict s) as [[e|d0] s1]; cbn; split.
  - intros e' [= <-]. reflexivity.
  - discriminate.
  - discriminate.
  - intros d [= <-]. eexists. split; [reflexivity|].
    split; [apply PyDictMore.get_set_same|].
    split; [intros k N; now apply PyDictMore.get_set_other|].
    split; [apply PyDictMore.keys_set_present|].
    split; [apply PyDictMore.keys_set_absent | apply PyDictMore.wf_set].
Qed.

(** *** The re-keying in general *)

(** X9: whatever the keys of the model's state dict, what
    [collate_state_dict] returns when [module_wrapped] is true is a
    dictionary: no key occurs twice.  Its keys are exactly the images of the
    keys of the state dict under the re-keying, and it has at most as many
    entries as the state dict. *)
Theorem collate_state_dict_rekeyed_is_dict :
  forall (s : State) (d : PyDict.t Tensor),
    module_wrapped (self s) = true ->
    fst (collate_state_dict s) = inr d ->
    let fetched := fst (state_dict (model (self s)) (ext s)) in
    PyDict.wf d
    /\ (forall k', In k' (PyDict.keys d)
                   <-> exists k, In k (PyDict.keys fetched) /\ strip_key k = k')
    /\ List.length d <= List.length fetched.
Proof.
  intros s d W. rewrite collate_state_dict_eq. cbn [fst]. rewrite W.
  destruct (fst (pdb_set_trace _)); [|discriminate].
  intros [= <-]. set (fetched := fst (state_dict (model (self s)) (ext s))).
  unfold PyDict.comprehension.
  split; [|split].
  - apply PyDictMore.loop_wf. constructor.
  - intros k'. rewrite PyDictMore.loop_keys by apply incl_refl.
    cbn. split; [intros [[]|H]; exact H | intros H; now right].
  - pose proof (PyDictMore.loop_length strip_key fetched (PyDict.keys fetched) [])
      as L.
    cbn in L. unfold PyDict.keys in L at 2. now rewrite length_map in L.
Qed.

(** X10: on a well-formed state dict, each key of the result of
    [collate_state_dict] under [module_wrapped] holds the value of the last
    entry of the state dict whose key is re-keyed to it: when keys collide
    the later entry wins, and keys that are not an image are absent. *)
Theorem collate_state_dict_last_key_wins :
  forall (s : State) (d : PyDict.t Tensor),
    module_wrapped (self s) = true ->
    fst (collate_state_dict s) = inr d ->
    let fetched := fst (state_dict (model (self s)) (ext s)) in
    PyDict.wf fetched ->
    forall k', PyDict.get k' d = PyDict.get k' (rev (PyDict.rekey strip_key fetched)).
Proof.
  intros s d W. rewrite collate_state_dict_eq. cbn [fst]. rewrite W.
  destruct (fst (pdb_set_trace _)); [|discriminate].
  intros [= <-]. set (fetched := fst (state_dict (model (self s)) (ext s))).
  intros Hwf k'. unfold PyDict.comprehension.
  rewrite (PyDictMore.loop_entries strip_key fetched fetched [] Hwf (incl_refl _)).
  rewrite PyDictMore.loop_last_wins. now destruct (PyDict.get k' _).
Qed.

(** X11: the re-keying only ever cuts a key at its front: the new key is a
    suffix of the old one.  No key but the empty one is left as it is, so
    under [module_wrapped] every non-empty key of the state dict is changed,
    whether or not it carries the wrapper prefix. *)
Theorem strip_key_is_a_proper_suffix :
  forall k : string,
    (exists a, k = (a ++ strip_key k)%string)
    /\ (strip_key k = k <-> k = EmptyString).
Proof.
  intros k. unfold strip_key, PyStr.partition.
  destruct (PyStr.split_first "module." k) as [[h t]|] eqn:E; cbn.
  - pose proof (PyStrFacts.split_first_decomposes _ _ _ _ E) as D. split.
    + exists (h ++ "module.")%string. rewrite D at 1.
      clear. induction h as [|c h IH]; cbn; [reflexivity | f_equal; exact IH].
    + split.
      * intros Et. exfalso.
        assert (L : String.length k = String.length h + (7 + String.length t)).
        { rewrite D at 1. now rewrite !PyStrFacts.append_length. }
        rewrite <- Et in L at 1. lia.
      * intros ->. destruct h; cbn in D; discriminate D.
  - split.
    + exists k. clear. induction k as [|c k IH]; cbn; [reflexivity | f_equal; exact IH].
    + split; intros H; now rewrite H.
Qed.

(** *** Construction and the lifetime of the configuration *)

(** Without FairScale the constructor raises the error that says so,
    whatever the options: the availability check comes before the check of
    the wrap flags, so the wrap error is never what an installation without
    FairScale reports; the two errors carry different messages. *)
Lemma init_unavailable_raises_first :
  forall (cpu_offload_ flatten_parameters_ reshard_after_forward_ : bool)
         (move_grads_to_cpu_ fp32_reduce_scatter_ : option bool)
         (compute_dtype_ : option Dtype) (bucket_cap_mb_ : Z)
         (module_wrap_ module_auto_wrap_ : bool) (min_num_params_ : Z)
         (parallel_devices_ : option (list device)) (num_nodes_ : option Z)
         (cluster_environment_ : option ClusterEnvironment)
         (sync_batchnorm_ : option bool),
    __init__ false cpu_offload_ flatten_parameters_ reshard_after_forward_
             move_grads_to_cpu_ fp32_reduce_scatter_ compute_dtype_
             bucket_cap_mb_ module_wrap_ module_auto_wrap_ min_num_params_
             parallel_devices_ num_nodes_ cluster_environment_ sync_batchnorm_
    = inl (MisconfigurationException not_available_msg)
    /\ not_available_msg <> wrap_not_supported_msg.
Proof. intros. split; [reflexivity | discriminate]. Qed.


Lemma no_wrap_event_filter (l : list Event) :
  no_wrap_event l = true -> filter is_wrap_event l = [].
Proof.
  unfold no_wrap_event. induction l as [|e l IH]; cbn; [reflexivity|].
  destruct (is_wrap_event e); cbn; [discriminate | exact IH].
Qed.

Lemma init_stores_sync_batchnorm
      (available cpu_offload_ flatten_parameters_ reshard_after_forward_ : bool)
      (move_grads_to_cpu_ fp32_reduce_scatter_ : option bool)
      (compute_dtype_ : option Dtype) (bucket_cap_mb_ : Z)
      (module_wrap_ module_auto_wrap_ : bool) (min_num_params_ : Z)
      (parallel_devices_ : option (list device)) (num_nodes_ : option Z)
      (cluster_environment_ : option ClusterEnvironment)
      (sync_batchnorm_ : option bool) (p : FullyShardedPlugin) :
  __init__ available cpu_offload_ flatten_parameters_ reshard_after_forward_
           move_grads_to_cpu_ fp32_reduce_scatter_ compute_dtype_
           bucket_cap_mb_ module_wrap_ module_auto_wrap_ min_num_params_
           parallel_devices_ num_nodes_ cluster_environment_ sync_batchnorm_
  = inr p ->
  sync_batchnorm p = sync_batchnorm_.
Proof.
  unfold __init__.
  destruct available; cbn; [|discriminate].
  destruct (module_wrap_ || module_auto_wrap_); [discriminate|].
  intros [= <-]. reflexivity.
Qed.

(** With both flags false [configure_ddp] keeps the model and wraps
    nothing. *)
Lemma configure_ddp_unwrapped (s : State) :
  module_wrapped (self s) = false ->
  model (self (exec configure_ddp s)) = model (self s)
  /\ filter is_wrap_event (trace (exec configure_ddp s))
     = filter is_wrap_event (trace s).
Proof.
  intros W. apply configure_ddp_without_wrap, wrap_whole_module_skipped.
  cbn. rewrite process_group_stores. exact W.
Qed.

(** X12: on an instance the constructor returned, at any point of its
    lifetime, [pre_dispatch] never wraps: the model it leaves is the model it
    found, or the conversion of that model to synchronized batch
    normalization if the instance was built with [sync_batchnorm=True]; no
    wrap call has been made, and the step methods still call the model
    directly. *)
Theorem constructed_pre_dispatch_keeps_model :
  forall (available cpu_offload_ flatten_parameters_ reshard_after_forward_ : bool)
         (move_grads_to_cpu_ fp32_reduce_scatter_ : option bool)
         (compute_dtype_ : option Dtype) (bucket_cap_mb_ : Z)
         (module_wrap_ module_auto_wrap_ : bool) (min_num_params_ : Z)
         (parallel_devices_ : option (list device)) (num_nodes_ : option Z)
         (cluster_environment_ : option ClusterEnvironment)
         (sync_batchnorm_ : option bool) (p : FullyShardedPlugin),
    __init__ available cpu_offload_ flatten_parameters_ reshard_after_forward_
             move_grads_to_cpu_ fp32_reduce_scatter_ compute_dtype_
             bucket_cap_mb_ module_wrap_ module_auto_wrap_ min_num_params_
             parallel_devices_ num_nodes_ cluster_environment_ sync_batchnorm_
    = inr p ->
    forall (x : Ext) (cs : list Call),
      let s := run_calls cs (fresh p x) in
      let s' := exec pre_dispatch s in
      model (self s')
      = (if truthy sync_batchnorm_
         then fst (configure_sync_batchnorm (model (self s)) (ext s))
         else model (self s))
      /\ filter is_wrap_event (trace s') = []
      /\ forall a, training_step a s' = model_call training a s'.
Proof.
  intros until p. intros Hinit x cs s s'.
  destruct (init_returns _ _ _ _ _ _ _ _ _ _ _ _ _ _ _ _ Hinit) as (Ew & Ea & _).
  pose proof (init_stores_sync_batchnorm _ _ _ _ _ _ _ _ _ _ _ _ _ _ _ _ Hinit) as Hsb.
  destruct (unwrapped_lifetime p x cs Ew Ea) as (Ew' & Ea' & Hno).
  fold s in Ew', Ea', Hno.
  assert (Hsb' : sync_batchnorm (self s) = sync_batchnorm_).
  { pose proof (evolves_config _ _ (run_calls_evolves cs (fresh p x))) as C.
    fold s in C. unfold same_config in C. rewrite C. cbn. exact Hsb. }
  pose proof (pre_dispatch_run s) as E. cbv zeta in E. rewrite Hsb' in E.
  remember (if truthy sync_batchnorm_ then _ else s) as s0 eqn:Es0.
  assert (W0 : module_wrapped (self s0) = false).
  { unfold module_wrapped. subst s0.
    destruct (truthy sync_batchnorm_); cbn; now rewrite Ew', Ea'. }
  destruct (configure_ddp_unwrapped s0 W0) as [Hm Ht].
  assert (Hself : self s' = self (exec configure_ddp s0))
    by (unfold s', exec at 1; now rewrite E).
  assert (Htr : trace s' = trace (exec configure_ddp s0) ++ [barrier_called])
    by (unfold s', exec at 1; now rewrite E).
  split; [|split].
  - rewrite Hself, Hm. subst s0. now destruct (truthy sync_batchnorm_).
  - rewrite Htr, filter_app, Ht. cbn. rewrite app_nil_r. subst s0.
    destruct (truthy sync_batchnorm_); cbn.
    + rewrite filter_app. cbn. rewrite app_nil_r. now apply no_wrap_event_filter.
    + now apply no_wrap_event_filter.
  - intros a.
    assert (W' : module_wrapped (self s') = false).
    { rewrite Hself.
      rewrite (same_config_module_wrapped _ _
                 (evolves_config _ _ (evolving_configure_ddp s0))).
      exact W0. }
    unfold training_step, bind, get_self. cbn -[model_call super_call].
    now rewrite W'.
Qed.

(** X13: on an instance the constructor returned, at any point of its
    lifetime, [on_save] stores under ['state_dict'] the state dict exactly as
    the model produced it (once the operator resumes at the debugger
    prompt): the re-keying never runs. *)
Theorem constructed_on_save_stores_state_dict_unmodified :
  forall (available cpu_offload_ flatten_parameters_ reshard_after_forward_ : bool)
         (move_grads_to_cpu_ fp32_reduce_scatter_ : option bool)
         (compute_dtype_ : option Dtype) (bucket_cap_mb_ : Z)
         (module_wrap_ module_auto_wrap_ : bool) (min_num_params_ : Z)
         (parallel_devices_ : option (list device)) (num_nodes_ : option Z)
         (cluster_environment_ : option ClusterEnvironment)
         (sync_batchnorm_ : option bool) (p : FullyShardedPlugin),
    __init__ available cpu_offload_ flatten_parameters_ reshard_after_forward_
             move_grads_to_cpu_ fp32_reduce_scatter_ compute_dtype_
             bucket_cap_mb_ module_wrap_ module_auto_wrap_ min_num_params_
             parallel_devices_ num_nodes_ cluster_environment_ sync_batchnorm_
    = inr p ->
    forall (x : Ext) (cs : list Call) (checkpoint : PyDict.t CheckpointValue),
      let s := run_calls cs (fresh p x) in
      let fetched := state_dict (model (self s)) (ext s) in
      fst (pdb_set_trace (snd fetched)) = Resume ->
      fst (on_save checkpoint s)
      = inr (PyDict.set "state_dict" (StateDictValue (fst fetched)) checkpoint).
Proof.
  intros until p. intros Hinit x cs checkpoint s fetched Hresume.
  destruct (init_returns _ _ _ _ _ _ _ _ _ _ _ _ _ _ _ _ Hinit) as (Ew & Ea & _).
  destruct (unwrapped_lifetime p x cs Ew Ea) as (Ew' & Ea' & _).
  fold s in Ew', Ea'.
  unfold on_save, bind, ret. rewrite collate_state_dict_eq. cbv zeta.
  fold fetched. rewrite Hresume. unfold module_wrapped. rewrite Ew', Ea'.
  reflexivity.
Qed.

(** *** The registry *)

(** X14: [register_plugins] records three presets, in this order: ['fsdp']
    with [module_wrap=True], ['fsdp_auto_wrap'] with [module_auto_wrap=True]
    and ['fsdp_manual'] without override, and touches nothing else.  Of the
    three only ['fsdp_manual'] can be constructed: with FairScale installed,
    the constructor called with the overrides of a recorded preset returns an
    instance exactly for that one, and raises for the other two. *)
Theorem registered_presets_and_their_construction :
  forall s : State,
  exists l,
    trace (exec register_plugins s) = trace s ++ l
    /\ self (exec register_plugins s) = self s
    /\ map registered_preset l
       = [Some ("fsdp", [("module_wrap", true)]);
          Some ("fsdp_auto_wrap", [("module_auto_wrap", true)]);
          Some ("fsdp_manual", [])]
    /\ forall name kwargs,
         In (Some (name, kwargs)) (map registered_preset l) ->
         ((exists p, construct_preset true kwargs = inr p) <-> name = "fsdp_manual")
         /\ (name <> "fsdp_manual" ->
             construct_preset true kwargs
             = inl (MisconfigurationException wrap_not_supported_msg)).
Proof.
  intros s. eexists. split.
  { unfold exec, register_plugins, bind, call_, call. cbn.
    rewrite <- !app_assoc. reflexivity. }
  split; [reflexivity|]. split; [reflexivity|].
  intros name kwargs [E|[E|[E|[]]]]; injection E as <- <-; cbn; split.
  - split; [intros [p Hp]; discriminate Hp | discriminate].
  - reflexivity.
  - split; [intros [p Hp]; discriminate Hp | discriminate].
  - reflexivity.
  - split; [reflexivity | intros _; eexists; reflexivity].
  - intros N. now elim N.
Qed.

End Dispatch.

(** * The further properties at work in the small world *)

Module MoreDemoFacts.
Import DemoRun DemoMore.

#[local] Existing Instance Demo.collaborators.

(** A body that raises inside the sharding context: the exception comes out
    and the scope has been left. *)
Example failing_body_leaves_scope :
  fst (model_sharded_context failing_body unwrapped) = inl BdbQuit
  /\ filter (fun e => negb (is_new_group e))
            (trace (exec (model_sharded_context failing_body) unwrapped))
     = [enable_wrap_entered
          (kwargs_of (self unwrapped) 0 "mixed");
        enable_wrap_exited].
Proof. split; reflexivity. Qed.

Lemma wrapped_model_is_sharded_witness :
  fst (auto_wrap (Demo.LightningWrapper (Demo.Container Demo.Linear))
                 (ext (scope_entered both_flags)))
  = Demo.LightningWrapper (Demo.Container Demo.Linear)
  /\ filter is_wrap_event (trace (exec wrap_whole_module (scope_entered both_flags)))
     = [LightningFullyShardedModule_called (Demo.Container Demo.Linear);
        auto_wrap_called (Demo.LightningWrapper (Demo.Container Demo.Linear));
        wrap_called (Demo.LightningWrapper (Demo.Container Demo.Linear))]
  /\ is_FullyShardedDataParallel
       (model (self (exec wrap_whole_module (scope_entered both_flags))))
       (ext (exec wrap_whole_module (scope_entered both_flags))) = true.
Proof.
  split; [reflexivity|]. split; [reflexivity|].
  apply (wrapped_model_is_sharded (R := Demo.collaborators) inside_scope).
  - intros kw x. discriminate.
  - intros m x H. exact H.
  - intros m x H. exact H.
  - intros m x H. unfold inside_scope in H. cbn.
    destruct (Demo.scope x); [reflexivity | now elim H].
  - reflexivity.
Defined.

Lemma pre_dispatch_ends_with_barrier_witness :
  fst (pre_dispatch attached) = inr tt
  /\ exists l lm,
       trace (exec pre_dispatch attached)
       = l ++ [setup_optimizers_called lm; barrier_called].
Proof.
  split; [reflexivity|].
  apply (pre_dispatch_ends_with_barrier attached). reflexivity.
Defined.

(** The run behind the witness: devices are moved to [cuda0], the optimizers
    are set up, and the barrier comes last. *)
Example pre_dispatch_in_the_small_world :
  filter (fun e => negb (is_new_group e))
         (skipn 2 (trace (exec pre_dispatch attached)))
  = [enable_wrap_entered (kwargs_of (self attached) 0 "mixed");
     enable_wrap_exited;
     to_called (Demo.Container Demo.Linear) Demo.cuda0;
     to_called (Demo.Container Demo.Linear) Demo.cuda0;
     setup_optimizers_called (Demo.Container Demo.Linear);
     barrier_called].
Proof. reflexivity. Qed.


Lemma collate_state_dict_rekeyed_is_dict_witness :
  fst (collate_state_dict auto_nested_configured) = inr [("", 2%Z)]
  /\ PyDict.wf (V := Z) [("", 2%Z)]
  /\ List.length (A := string * Z) [("", 2%Z)] <= 2.
Proof.
  split; [reflexivity|].
  destruct (collate_state_dict_rekeyed_is_dict auto_nested_configured [("", 2%Z)])
    as (H1 & _ & H3).
  - reflexivity.
  - reflexivity.
  - split; [exact H1 | exact H3].
Defined.

Lemma collate_state_dict_last_key_wins_witness :
  fst (state_dict (model (self auto_nested_configured)) (ext auto_nested_configured))
  = [("layer.weight", 1%Z); ("layer.bias", 2%Z)]
  /\ PyDict.get "" (V := Z) [("", 2%Z)]
     = PyDict.get "" (rev (PyDict.rekey strip_key
                             [("layer.weight", 1%Z); ("layer.bias", 2%Z)])).
Proof.
  split; [reflexivity|].
  apply (collate_state_dict_last_key_wins auto_nested_configured [("", 2%Z)]).
  - reflexivity.
  - reflexivity.
  - repeat constructor; cbn; intuition discriminate.
Defined.

Lemma constructed_pre_dispatch_keeps_model_witness :
  __init__ true false true true None None None 25 false false 100000000
           (Some [Demo.cuda0]) None None None = inr defaults
  /\ model (self (exec pre_dispatch (run_calls session (fresh defaults Demo.world0))))
     = model (self (run_calls session (fresh defaults Demo.world0)))
  /\ filter is_wrap_event
            (trace (exec pre_dispatch (run_calls session (fresh defaults Demo.world0))))
     = [].
Proof.
  split; [reflexivity|].
  destruct (constructed_pre_dispatch_keeps_model
              true false true true None None None 25 false false 100000000
              (Some [Demo.cuda0]) None None None defaults eq_refl Demo.world0 session)
    as (H1 & H2 & _).
  split; [exact H1 | exact H2].
Defined.

Lemma constructed_on_save_stores_state_dict_unmodified_witness :
  __init__ true false true true None None None 25 false false 100000000
           (Some [Demo.cuda0]) None None None = inr defaults
  /\ fst (on_save checkpoint0 (run_calls session (fresh defaults Demo.world0)))
     = inr [("epoch", OtherValue tt);
            ("state_dict",
             StateDictValue [("layer.weight", 1%Z); ("layer.bias", 2%Z)])].
Proof.
  split; [reflexivity|].
  apply (constructed_on_save_stores_state_dict_unmodified
           true false true true None None None 25 false false 100000000
           (Some [Demo.cuda0]) None None None defaults eq_refl Demo.world0 session checkpoint0).
  reflexivity.
Defined.

(** The manual wrap in the small world: the Lightning wrapper, then the
    sharded wrapper. *)
Example manual_wrap_in_the_small_world :
  model (self (exec configure_ddp manual))
  = Demo.Sharded (Demo.LightningWrapper (Demo.Container Demo.Linear))
  /\ filter is_wrap_event (trace (exec configure_ddp manual))
     = [LightningFullyShardedModule_called (Demo.Container Demo.Linear);
        wrap_called (Demo.LightningWrapper (Demo.Container Demo.Linear))].
Proof. split; reflexivity. Qed.

End MoreDemoFacts.
